(** * cfgrib.bindings: the CFFI binding layer over ecCodes

    A shallow embedding of [cfgrib/bindings.py].  The Python functions are
    computations in a state-and-exception monad over a [world] that holds the
    state of the native library, the log of the foreign calls issued so far,
    the records sent to the logger, and a counter used to give every cdata
    object its identity.

    The native library (what [ffi.dlopen] returns, together with the
    constants of [grib_api.h]) is a parameter: a record [eccodes] of
    constants and state transformers.  The Python runtime of the host
    (platform name, width of a C [long], the file system seen by [open]) is
    the record [host]. *)

From Stdlib Require Import ZArith String Ascii List Bool Lia.
From Stdlib Require Import DecimalString SpecFloat.
Import ListNotations.

Local Open Scope string_scope.
Local Open Scope Z_scope.

(** ** Host values *)

(** Python [bytes]: a sequence of 8-bit characters. *)
Definition bytes := string.

(** A C [double] (and the value of a Python [float]): IEEE 754 binary64. *)
Definition double := spec_float.

(** A cdata pointer object.  cffi wraps every pointer returned by a foreign
    call in a new Python object; [==] on cdata compares the addresses, [is]
    compares the objects. *)
Record cdata : Type := CData { obj_id : nat; address : Z }.

(** [ffi.NULL], the one module-level null pointer object. *)
Definition ffi_NULL : cdata := {| obj_id := 0; address := 0 |}.

(** Python [a == b] on cdata pointers. *)
Definition cdata_eq (a b : cdata) : bool := address a =? address b.

(** Python [a is b]. *)
Definition cdata_is (a b : cdata) : bool := Nat.eqb (obj_id a) (obj_id b).

(** The Python values that reach the dynamically typed arguments of the
    layer ([value] of [codes_index_select] and [codes_set], the elements of
    [values] of [codes_set_array]) and that its getters return. *)
#[warnings="-register-all"]
Inductive pyval : Type :=
| PyNone
| PyBool (b : bool)
| PyInt (z : Z)
| PyFloat (d : double)
| PyBytes (b : bytes)
| PyStr (s : string)
| PyList (l : list pyval).

Inductive pytype : Type :=
| t_NoneType | t_bool | t_int | t_float | t_bytes | t_str | t_list.

Definition type_of (v : pyval) : pytype :=
  match v with
  | PyNone => t_NoneType
  | PyBool _ => t_bool
  | PyInt _ => t_int
  | PyFloat _ => t_float
  | PyBytes _ => t_bytes
  | PyStr _ => t_str
  | PyList _ => t_list
  end.

Definition pytype_eqb (a b : pytype) : bool :=
  match a, b with
  | t_NoneType, t_NoneType | t_bool, t_bool | t_int, t_int
  | t_float, t_float | t_bytes, t_bytes | t_str, t_str | t_list, t_list => true
  | _, _ => false
  end.

(** [bool] is a subclass of [int]; the other classes are unrelated. *)
Definition issubclass (a b : pytype) : bool :=
  pytype_eqb a b ||
  match a, b with
  | t_bool, t_int => true
  | _, _ => false
  end.

Definition isinstance (v : pyval) (t : pytype) : bool :=
  issubclass (type_of v) t.

(** ** Exceptions *)

(** [EcCodesError] carries its attributes [code] and [eccode_message] and
    the formatted [message] it passes to [Exception.__init__].  The texts of
    the other exceptions are built with [%r] and are not modelled. *)
Inductive exn : Type :=
| EcCodesError (code : Z) (eccode_message : string) (message : string)
| EOFError
| RuntimeError
| TypeError
| ValueError
| NotImplementedError
| OverflowError
| IndexError
| UnicodeDecodeError
| OSError.

Inductive outcome (A : Type) : Type :=
| Ok (a : A)
| Raise (e : exn).
Arguments Ok {A} a.
Arguments Raise {A} e.

(** ** Text *)

(** [str(n)] and [%d] / [%s] / [%r] of a Python int. *)
Definition str_of_int (n : Z) : string := NilZero.string_of_int (Z.to_int n).

Definition is_ascii_char (c : ascii) : bool := (N_of_ascii c <? 128)%N.

Fixpoint is_ascii (b : bytes) : bool :=
  match b with
  | EmptyString => true
  | String c r => is_ascii_char c && is_ascii r
  end.

(** [b.decode('ascii')]: fails on the first byte above 127. *)
Fixpoint decode_ascii (b : bytes) : outcome string :=
  match b with
  | EmptyString => Ok EmptyString
  | String c r =>
      if is_ascii_char c then
        match decode_ascii r with
        | Ok s => Ok (String c s)
        | Raise e => Raise e
        end
      else Raise UnicodeDecodeError
  end.

(** default encoding for ecCodes strings *)
Definition ENC := decode_ascii.

(** ** Marshalling of Python values into C values *)

Definition fits (bits : Z) (z : Z) : bool :=
  (- 2 ^ (bits - 1) <=? z) && (z <? 2 ^ (bits - 1)).

(** A Python object given where a C signed integer of [bits] bits is
    expected: an [int] (or [bool]) in range; a [float] is refused. *)
Definition convert_integer (bits : Z) (v : pyval) : outcome Z :=
  match v with
  | PyInt z => if fits bits z then Ok z else Raise OverflowError
  | PyBool b => Ok (if b then 1 else 0)
  | _ => Raise TypeError
  end.

(** A Python object given where a C unsigned integer of [bits] bits is
    expected (an [enum] whose values are all non-negative is passed as
    [unsigned int]): an [int] (or [bool]) from 0 up to [2 ^ bits - 1]. *)
Definition convert_unsigned (bits : Z) (v : pyval) : outcome Z :=
  match v with
  | PyInt z => if (0 <=? z) && (z <? 2 ^ bits) then Ok z else Raise OverflowError
  | PyBool b => Ok (if b then 1 else 0)
  | _ => Raise TypeError
  end.

(** [float(z)] for a Python int: the nearest binary64, [OverflowError]
    beyond its range. *)
Definition float_of_int (z : Z) : outcome double :=
  match binary_normalize 53 1024 z 0 false with
  | S754_infinity _ => Raise OverflowError
  | d => Ok d
  end.

(** A Python object given where a C [double] is expected: a [float], or
    anything [float()] works on. *)
Definition convert_double (v : pyval) : outcome double :=
  match v with
  | PyFloat d => Ok d
  | PyInt z => float_of_int z
  | PyBool b => float_of_int (if b then 1 else 0)
  | _ => Raise TypeError
  end.

(** A Python object given where a [char *] is expected. *)
Definition convert_char_p (v : pyval) : outcome bytes :=
  match v with
  | PyBytes b => Ok b
  | _ => Raise TypeError
  end.

(** The initializer of [ffi.new("T []", values)]: the items are converted
    in order and the first failure is raised. *)
Fixpoint convert_array {A : Type} (conv : pyval -> outcome A) (values : list pyval)
  : outcome (list A) :=
  match values with
  | [] => Ok []
  | v :: rest =>
      match conv v with
      | Raise e => Raise e
      | Ok a =>
          match convert_array conv rest with
          | Raise e => Raise e
          | Ok l => Ok (a :: l)
          end
      end
  end.

(** The contents of an array made by [ffi.new("T []", size)] (zero filled)
    after a foreign call has stored [written] from its first cell on. *)
Definition buffer {A : Type} (size : nat) (zero : A) (written : list A) : list A :=
  firstn size (written ++ repeat zero size).

(** [ffi.string(p, maxlen)], where [buf] is the memory found at [p]: the
    bytes before the first NUL, at most [maxlen] of them.  With [maxlen]
    given the scan is not bounded by the length of an array at [p]. *)
Fixpoint ffi_string (buf : bytes) (maxlen : nat) : bytes :=
  match maxlen, buf with
  | O, _ => EmptyString
  | _, EmptyString => EmptyString
  | S n, String c r =>
      if (N_of_ascii c =? 0)%N then EmptyString else String c (ffi_string r n)
  end.

(** The memory from the start of a [char[length]] made by [ffi.new] on,
    after a foreign call has stored [written] from its first byte: the
    cells of the array the call did not reach are zero, and the bytes of
    [written] past [length] are what lies behind the array. *)
Definition char_memory (length : nat) (written : bytes) : bytes :=
  written ++ string_of_list_ascii (repeat zero (length - String.length written)).

(** ** The native library *)

(** The foreign calls the layer issues, with the C values they receive.
    Pointers are addresses; a [FILE *] is the address the file object
    converts to. *)
Inductive call : Type :=
| c_grib_get_error_message (code : Z)
| c_codes_handle_new_from_file (context fileobj product_kind : Z)
| c_codes_handle_clone (handle : Z)
| c_codes_index_select_long (index : Z) (key : bytes) (value : Z)
| c_codes_index_select_double (index : Z) (key : bytes) (value : double)
| c_codes_index_select_string (index : Z) (key : bytes) (value : bytes)
| c_codes_get_size (handle : Z) (key : bytes)
| c_codes_get_length (handle : Z) (key : bytes)
| c_codes_get_native_type (handle : Z) (key : bytes)
| c_codes_get_long (handle : Z) (key : bytes)
| c_codes_get_double (handle : Z) (key : bytes)
| c_codes_get_string (handle : Z) (key : bytes) (length : nat)
| c_codes_get_long_array (handle : Z) (key : bytes) (size : nat)
| c_codes_get_double_array (handle : Z) (key : bytes) (size : nat)
| c_codes_get_string_array (handle : Z) (key : bytes) (length size : nat)
| c_codes_get_bytes (handle : Z) (key : bytes) (size : nat)
| c_codes_set_long_array (handle : Z) (key : bytes) (values : list Z) (size : nat)
| c_codes_set_double_array (handle : Z) (key : bytes) (values : list double) (size : nat)
| c_codes_get_api_version
| c_codes_samples_path (context : Z)
| c_codes_grib_handle_new_from_samples (context : Z) (samplename : bytes)
| c_codes_bufr_handle_new_from_samples (context : Z) (samplename : bytes).

(** What [ffi.dlopen] gives: the constants of [grib_api.h] and the entry
    points, each a transformer of the library's state [St].  An entry point
    with out-parameters returns what it stores in them next to its own
    result: [(status, stored)].  An array entry point returns the items it
    stores from the first cell on and the count it leaves in [*size]. *)
Record eccodes (St : Type) : Type := {
  GRIB_SUCCESS : Z;
  GRIB_END_OF_FILE : Z;
  GRIB_NULL_POINTER : Z;
  GRIB_TYPE_UNDEFINED : Z;
  GRIB_TYPE_LONG : Z;
  GRIB_TYPE_DOUBLE : Z;
  GRIB_TYPE_STRING : Z;
  GRIB_TYPE_BYTES : Z;
  GRIB_TYPE_SECTION : Z;
  GRIB_TYPE_LABEL : Z;
  GRIB_TYPE_MISSING : Z;
  n_grib_get_error_message : Z -> bytes;
  n_codes_handle_new_from_file : Z -> Z -> Z -> St -> (Z * Z) * St;
  n_codes_handle_clone : Z -> St -> Z * St;
  n_codes_index_select_long : Z -> bytes -> Z -> St -> Z * St;
  n_codes_index_select_double : Z -> bytes -> double -> St -> Z * St;
  n_codes_index_select_string : Z -> bytes -> bytes -> St -> Z * St;
  n_codes_get_size : Z -> bytes -> St -> (Z * nat) * St;
  n_codes_get_length : Z -> bytes -> St -> (Z * nat) * St;
  n_codes_get_native_type : Z -> bytes -> St -> (Z * Z) * St;
  n_codes_get_long : Z -> bytes -> St -> (Z * Z) * St;
  n_codes_get_double : Z -> bytes -> St -> (Z * double) * St;
  n_codes_get_string : Z -> bytes -> nat -> St -> (Z * (bytes * nat)) * St;
  n_codes_get_long_array : Z -> bytes -> nat -> St -> (Z * (list Z * nat)) * St;
  n_codes_get_double_array : Z -> bytes -> nat -> St -> (Z * (list double * nat)) * St;
  n_codes_get_string_array : Z -> bytes -> nat -> nat -> St -> (Z * (list bytes * nat)) * St;
  n_codes_get_bytes : Z -> bytes -> nat -> St -> (Z * (list Z * nat)) * St;
  n_codes_set_long_array : Z -> bytes -> list Z -> nat -> St -> Z * St;
  n_codes_set_double_array : Z -> bytes -> list double -> nat -> St -> Z * St;
  n_codes_get_api_version : St -> Z * St;
  n_codes_samples_path : Z -> St -> option bytes * St;
  n_codes_grib_handle_new_from_samples : Z -> bytes -> St -> Z * St;
  n_codes_bufr_handle_new_from_samples : Z -> bytes -> St -> Z * St
}.

Arguments GRIB_SUCCESS {St} _.
Arguments GRIB_END_OF_FILE {St} _.
Arguments GRIB_NULL_POINTER {St} _.
Arguments GRIB_TYPE_UNDEFINED {St} _.
Arguments GRIB_TYPE_LONG {St} _.
Arguments GRIB_TYPE_DOUBLE {St} _.
Arguments GRIB_TYPE_STRING {St} _.
Arguments GRIB_TYPE_BYTES {St} _.
Arguments GRIB_TYPE_SECTION {St} _.
Arguments GRIB_TYPE_LABEL {St} _.
Arguments GRIB_TYPE_MISSING {St} _.
Arguments n_grib_get_error_message {St} _ _.
Arguments n_codes_handle_new_from_file {St} _ _ _ _ _.
Arguments n_codes_handle_clone {St} _ _ _.
Arguments n_codes_index_select_long {St} _ _ _ _ _.
Arguments n_codes_index_select_double {St} _ _ _ _ _.
Arguments n_codes_index_select_string {St} _ _ _ _ _.
Arguments n_codes_get_size {St} _ _ _ _.
Arguments n_codes_get_length {St} _ _ _ _.
Arguments n_codes_get_native_type {St} _ _ _ _.
Arguments n_codes_get_long {St} _ _ _ _.
Arguments n_codes_get_double {St} _ _ _ _.
Arguments n_codes_get_string {St} _ _ _ _ _.
Arguments n_codes_get_long_array {St} _ _ _ _ _.
Arguments n_codes_get_double_array {St} _ _ _ _ _.
Arguments n_codes_get_string_array {St} _ _ _ _ _ _.
Arguments n_codes_get_bytes {St} _ _ _ _ _.
Arguments n_codes_set_long_array {St} _ _ _ _ _ _.
Arguments n_codes_set_double_array {St} _ _ _ _ _ _.
Arguments n_codes_get_api_version {St} _ _.
Arguments n_codes_samples_path {St} _ _ _.
Arguments n_codes_grib_handle_new_from_samples {St} _ _ _ _.
Arguments n_codes_bufr_handle_new_from_samples {St} _ _ _ _.

(** The Python runtime the module runs on. *)
Record host : Type := {
  (** [platform.platform().startswith('Windows')] *)
  is_windows : bool;
  (** width of a C [long] *)
  long_bits : Z;
  os_path_join : bytes -> bytes -> bytes;
  (** [open(path)]: the [FILE *] of the file object, or [None] when [open]
      raises [OSError] *)
  open_file : bytes -> option Z
}.

(** ** Worlds and computations *)

Record world (St : Type) : Type := World {
  native : St;
  next_id : nat;
  calls : list call;
  warnings : list string
}.
Arguments World {St} _ _ _ _.
Arguments native {St} _.
Arguments next_id {St} _.
Arguments calls {St} _.
Arguments warnings {St} _.

Definition M (St A : Type) : Type := world St -> outcome A * world St.

Definition ret {St A : Type} (a : A) : M St A := fun w => (Ok a, w).

Definition bind {St A B : Type} (c : M St A) (k : A -> M St B) : M St B :=
  fun w =>
    match c w with
    | (Ok a, w') => k a w'
    | (Raise e, w') => (Raise e, w')
    end.

Definition raise {St A : Type} (e : exn) : M St A := fun w => (Raise e, w).

(** [try: c  except E as ex: h ex], where [h] re-raises what [E] does not
    match. *)
Definition try_except {St A : Type} (c : M St A) (h : exn -> M St A) : M St A :=
  fun w =>
    match c w with
    | (Ok a, w') => (Ok a, w')
    | (Raise e, w') => h e w'
    end.

(** The result of a conversion, raised in place when it failed. *)
Definition lift {St A : Type} (o : outcome A) : M St A := fun w => (o, w).

Notation "x <- c ;; k" := (bind c (fun x => k))
  (at level 61, c at next level, right associativity).
Notation "' pat <- c ;; k" := (bind c (fun x => match x with pat => k end))
  (at level 61, pat pattern, c at next level, right associativity).
Notation "c ;;; k" := (bind c (fun _ => k))
  (at level 61, right associativity).

(** A foreign call: logged, then run on the library's state. *)
Definition foreign {St A : Type} (ev : call) (f : St -> A * St) : M St A :=
  fun w =>
    let (a, s) := f (native w) in
    (Ok a, World s (next_id w) (calls w ++ [ev]) (warnings w)).

(** The cdata object cffi makes for a pointer a foreign call returned. *)
Definition new_cdata {St : Type} (addr : Z) : M St cdata :=
  fun w =>
    (Ok (CData (S (next_id w)) addr),
     World (native w) (S (next_id w)) (calls w) (warnings w)).

(** [log.warning(fmt, arg)] *)
Definition log_warning {St : Type} (text : string) : M St unit :=
  fun w => (Ok tt, World (native w) (next_id w) (calls w) (warnings w ++ [text])).

(** ** Module constants *)

Definition CODES_PRODUCT_ANY : Z := 0.
Definition CODES_PRODUCT_GRIB : Z := 1.
Definition CODES_PRODUCT_BUFR : Z := 2.
Definition CODES_PRODUCT_METAR : Z := 3.
Definition CODES_PRODUCT_GTS : Z := 4.
Definition CODES_PRODUCT_TAF : Z := 5.

Definition GRIB_MISSING_LONG : Z := 2147483647.
Definition CODES_MISSING_LONG : Z := GRIB_MISSING_LONG.

(** [if context is None: context = ffi.NULL] *)
Definition or_NULL (context : option cdata) : cdata :=
  match context with
  | None => ffi_NULL
  | Some c => c
  end.

(** ** The binding layer *)

Section Bindings.

Context {St : Type}.
Variable lib : eccodes St.
Variable py : host.

Definition CODES_TYPE_UNDEFINED : Z := GRIB_TYPE_UNDEFINED lib.
Definition CODES_TYPE_LONG : Z := GRIB_TYPE_LONG lib.
Definition CODES_TYPE_DOUBLE : Z := GRIB_TYPE_DOUBLE lib.
Definition CODES_TYPE_STRING : Z := GRIB_TYPE_STRING lib.
Definition CODES_TYPE_BYTES : Z := GRIB_TYPE_BYTES lib.
Definition CODES_TYPE_SECTION : Z := GRIB_TYPE_SECTION lib.
Definition CODES_TYPE_LABEL : Z := GRIB_TYPE_LABEL lib.
Definition CODES_TYPE_MISSING : Z := GRIB_TYPE_MISSING lib.

(** *** Helper functions for error reporting *)

(** [lib.grib_get_error_message(code)]; [code] is a status the library
    itself produced. *)
Definition lib_grib_get_error_message (code : Z) : M St bytes :=
  foreign (c_grib_get_error_message code)
          (fun s => (n_grib_get_error_message lib code, s)).

Definition grib_get_error_message (code : Z) : M St string :=
  message <- lib_grib_get_error_message code ;;
  lift (ENC message).

(** [EcCodesError.__init__(self, code, message=None)] *)
Definition EcCodesError_init (code : Z) (message : option string) : M St exn :=
  eccode_message <- grib_get_error_message code ;;
  let message :=
    match message with
    | None => eccode_message ++ " (" ++ str_of_int code ++ ")."
    | Some m => m
    end in
  ret (EcCodesError code eccode_message message).

(** The wrapper [check_last(func)] applied to its arguments: [func] is the foreign call already applied
    to [args] and to the fresh [int *]; it yields its result and the status
    it stored. *)
Definition check_last {A : Type} (func : M St (A * Z)) : M St A :=
  '(retval, code) <- func ;;
  if negb (code =? GRIB_SUCCESS lib) then
    ex <- EcCodesError_init code None ;; raise ex
  else ret retval.

(** The wrapper [check_return(func)] applied to its arguments: [func] yields the status it returns and
    what it stored in the out-parameters among [args]; the wrapper returns
    [None], and the caller then reads the out-parameters. *)
Definition check_return {B : Type} (func : M St (Z * B)) : M St B :=
  '(code, stored) <- func ;;
  if negb (code =? GRIB_SUCCESS lib) then
    ex <- EcCodesError_init code None ;; raise ex
  else ret stored.

(** *** Message handles *)

(** [lib.codes_handle_new_from_file(context, fileobj, product_kind, code)]:
    [product_kind] is an [enum ProductKind], passed as [unsigned int]. *)
Definition lib_codes_handle_new_from_file (context : cdata) (fileobj product_kind : Z)
  : M St (cdata * Z) :=
  kind <- lift (convert_unsigned 32 (PyInt product_kind)) ;;
  '(h, code) <- foreign (c_codes_handle_new_from_file (address context) fileobj kind)
                        (n_codes_handle_new_from_file lib (address context) fileobj kind) ;;
  retval <- new_cdata h ;;
  ret (retval, code).

Definition codes_handle_new_from_file (fileobj : Z) (product_kind : Z)
    (context : option cdata) : M St cdata :=
  let context := or_NULL context in
  try_except
    (retval <- check_last (lib_codes_handle_new_from_file context fileobj product_kind) ;;
     if cdata_eq retval ffi_NULL then raise EOFError
     else ret retval)
    (fun ex =>
       match ex with
       | EcCodesError code _ _ =>
           if code =? GRIB_END_OF_FILE lib then raise EOFError
           else raise ex
       | _ => raise ex
       end).

Definition lib_codes_handle_clone (handle : cdata) : M St cdata :=
  h <- foreign (c_codes_handle_clone (address handle))
               (n_codes_handle_clone lib (address handle)) ;;
  new_cdata h.

Definition codes_handle_clone (handle : cdata) : M St cdata :=
  cloned_handle <- lib_codes_handle_clone handle ;;
  if cdata_is cloned_handle ffi_NULL then
    ex <- EcCodesError_init (GRIB_NULL_POINTER lib) None ;; raise ex
  else ret cloned_handle.

(** *** Index selection *)

Definition lib_codes_index_select_long (indexid : cdata) (key : bytes) (value : pyval)
  : M St (Z * unit) :=
  v <- lift (convert_integer (long_bits py) value) ;;
  code <- foreign (c_codes_index_select_long (address indexid) key v)
                  (n_codes_index_select_long lib (address indexid) key v) ;;
  ret (code, tt).

Definition lib_codes_index_select_double (indexid : cdata) (key : bytes) (value : pyval)
  : M St (Z * unit) :=
  v <- lift (convert_double value) ;;
  code <- foreign (c_codes_index_select_double (address indexid) key v)
                  (n_codes_index_select_double lib (address indexid) key v) ;;
  ret (code, tt).

Definition lib_codes_index_select_string (indexid : cdata) (key : bytes) (value : pyval)
  : M St (Z * unit) :=
  v <- lift (convert_char_p value) ;;
  code <- foreign (c_codes_index_select_string (address indexid) key v)
                  (n_codes_index_select_string lib (address indexid) key v) ;;
  ret (code, tt).

Definition codes_index_select_long (indexid : cdata) (key : bytes) (value : pyval)
  : M St unit :=
  check_return (lib_codes_index_select_long indexid key value).

Definition codes_index_select_double (indexid : cdata) (key : bytes) (value : pyval)
  : M St unit :=
  check_return (lib_codes_index_select_double indexid key value).

Definition codes_index_select_string (indexid : cdata) (key : bytes) (value : pyval)
  : M St unit :=
  check_return (lib_codes_index_select_string indexid key value).

Definition codes_index_select (indexid : cdata) (key : bytes) (value : pyval)
  : M St unit :=
  if isinstance value t_int then
    codes_index_select_long indexid key value
  else if isinstance value t_float then
    codes_index_select_double indexid key value
  else if isinstance value t_bytes then
    codes_index_select_string indexid key value
  else raise RuntimeError.

(** *** Sizes, lengths and native types *)

Definition lib_codes_get_size (handle : cdata) (key : bytes) : M St (Z * nat) :=
  foreign (c_codes_get_size (address handle) key)
          (n_codes_get_size lib (address handle) key).

Definition codes_get_size (handle : cdata) (key : bytes) : M St nat :=
  check_return (lib_codes_get_size handle key).

Definition lib_codes_get_length (handle : cdata) (key : bytes) : M St (Z * nat) :=
  foreign (c_codes_get_length (address handle) key)
          (n_codes_get_length lib (address handle) key).

Definition codes_get_length (handle : cdata) (key : bytes) : M St nat :=
  check_return (lib_codes_get_length handle key).

Definition lib_codes_get_native_type (handle : cdata) (key : bytes) : M St (Z * Z) :=
  foreign (c_codes_get_native_type (address handle) key)
          (n_codes_get_native_type lib (address handle) key).

Definition codes_get_native_type (handle : cdata) (key : bytes) : M St Z :=
  check_return (lib_codes_get_native_type handle key).

(** *** Array getters *)

Definition lib_codes_get_bytes (handle : cdata) (key : bytes) (size : nat)
  : M St (Z * (list Z * nat)) :=
  foreign (c_codes_get_bytes (address handle) key size)
          (n_codes_get_bytes lib (address handle) key size).

Definition codes_get_bytes_array (handle : cdata) (key : bytes) (size : nat)
  : M St (list Z) :=
  '(written, _) <- check_return (lib_codes_get_bytes handle key size) ;;
  ret (buffer size 0 written).

Definition lib_codes_get_long_array (handle : cdata) (key : bytes) (size : nat)
  : M St (Z * (list Z * nat)) :=
  foreign (c_codes_get_long_array (address handle) key size)
          (n_codes_get_long_array lib (address handle) key size).

Definition codes_get_long_array (handle : cdata) (key : bytes) (size : nat)
  : M St (list Z) :=
  '(written, _) <- check_return (lib_codes_get_long_array handle key size) ;;
  ret (buffer size 0 written).

Definition lib_codes_get_double_array (handle : cdata) (key : bytes) (size : nat)
  : M St (Z * (list double * nat)) :=
  foreign (c_codes_get_double_array (address handle) key size)
          (n_codes_get_double_array lib (address handle) key size).

Definition codes_get_double_array (handle : cdata) (key : bytes) (size : nat)
  : M St (list double) :=
  '(written, _) <- check_return (lib_codes_get_double_array handle key size) ;;
  ret (buffer size (S754_zero false) written).

Definition lib_codes_get_string_array (handle : cdata) (key : bytes) (length size : nat)
  : M St (Z * (list bytes * nat)) :=
  foreign (c_codes_get_string_array (address handle) key length size)
          (n_codes_get_string_array lib (address handle) key length size).

(** [values[i]] for [i] in [range(size_p[0])]: an index past the end of the
    [char*[size]] array raises [IndexError]; [ffi.string] reads each item up
    to its first NUL. *)
Definition codes_get_string_array (handle : cdata) (key : bytes) (size : nat)
    (length : option nat) : M St (list bytes) :=
  length <- match length with
            | None => codes_get_length handle key
            | Some n => ret n
            end ;;
  '(written, size_p) <- check_return (lib_codes_get_string_array handle key length size) ;;
  let values := buffer size EmptyString written in
  if (size_p <=? size)%nat then
    ret (map (fun v => ffi_string v (String.length v)) (firstn size_p values))
  else raise IndexError.

(** *** Scalar getters *)

Definition lib_codes_get_long (handle : cdata) (key : bytes) : M St (Z * Z) :=
  foreign (c_codes_get_long (address handle) key)
          (n_codes_get_long lib (address handle) key).

Definition codes_get_long (handle : cdata) (key : bytes) : M St Z :=
  check_return (lib_codes_get_long handle key).

Definition lib_codes_get_double (handle : cdata) (key : bytes) : M St (Z * double) :=
  foreign (c_codes_get_double (address handle) key)
          (n_codes_get_double lib (address handle) key).

Definition codes_get_double (handle : cdata) (key : bytes) : M St double :=
  check_return (lib_codes_get_double handle key).

Definition lib_codes_get_string (handle : cdata) (key : bytes) (length : nat)
  : M St (Z * (bytes * nat)) :=
  foreign (c_codes_get_string (address handle) key length)
          (n_codes_get_string lib (address handle) key length).

(** [ffi.string(values, length_p[0])] starts at the buffer and reads up to
    [length_p] bytes, past the end of the buffer when [length_p] is larger;
    [written] stands for the memory it reads. *)
Definition codes_get_string (handle : cdata) (key : bytes) (length : option nat)
  : M St bytes :=
  length <- match length with
            | None => codes_get_length handle key
            | Some n => ret n
            end ;;
  '(written, length_p) <- check_return (lib_codes_get_string handle key length) ;;
  ret (ffi_string (char_memory length written) length_p).

(** *** Getters by native type *)

Definition unknown_key_type (key_type : Z) : string :=
  "Unknown GRIB key type: " ++ str_of_int key_type.

Definition codes_get_array (handle : cdata) (key : bytes) (key_type : option Z)
    (size : option nat) (length : option nat) : M St pyval :=
  key_type <- match key_type with
              | None => codes_get_native_type handle key
              | Some t => ret t
              end ;;
  size <- match size with
          | None => codes_get_size handle key
          | Some n => ret n
          end ;;
  if key_type =? CODES_TYPE_LONG then
    l <- codes_get_long_array handle key size ;; ret (PyList (map PyInt l))
  else if key_type =? CODES_TYPE_DOUBLE then
    l <- codes_get_double_array handle key size ;; ret (PyList (map PyFloat l))
  else if key_type =? CODES_TYPE_STRING then
    l <- codes_get_string_array handle key size length ;; ret (PyList (map PyBytes l))
  else if key_type =? CODES_TYPE_BYTES then
    l <- codes_get_bytes_array handle key size ;; ret (PyList (map PyInt l))
  else
    log_warning (unknown_key_type key_type) ;;; ret PyNone.

Definition codes_get (handle : cdata) (key : bytes) (key_type : option Z)
    (length : option nat) : M St pyval :=
  key_type <- match key_type with
              | None => codes_get_native_type handle key
              | Some t => ret t
              end ;;
  if key_type =? CODES_TYPE_LONG then
    v <- codes_get_long handle key ;; ret (PyInt v)
  else if key_type =? CODES_TYPE_DOUBLE then
    v <- codes_get_double handle key ;; ret (PyFloat v)
  else if key_type =? CODES_TYPE_STRING then
    v <- codes_get_string handle key length ;; ret (PyBytes v)
  else
    log_warning (unknown_key_type key_type) ;;; ret PyNone.

(** *** API version *)

Definition codes_get_api_version : M St string :=
  ver <- foreign c_codes_get_api_version (n_codes_get_api_version lib) ;;
  let patch := ver mod 100 in
  let ver := ver / 100 in
  let minor := ver mod 100 in
  let major := ver / 100 in
  ret (str_of_int major ++ "." ++ str_of_int minor ++ "." ++ str_of_int patch).

(** *** Samples *)

(** [ffi.string(lib.codes_samples_path(ffi.NULL))]: [ffi.string] raises
    [RuntimeError] on a null [char *]. *)
Definition samples_path : M St bytes :=
  p <- foreign (c_codes_samples_path (address ffi_NULL))
               (n_codes_samples_path lib (address ffi_NULL)) ;;
  match p with
  | None => raise RuntimeError
  | Some folder => ret folder
  end.

Definition portable_handle_new_from_samples (samplename : bytes) (product_kind : Z)
  : M St cdata :=
  if is_windows py then
    samples_folder <- samples_path ;;
    let sample_path := os_path_join py samples_folder (samplename ++ ".tmpl") in
    try_except
      (match open_file py sample_path with
       | None => raise OSError
       | Some file => codes_handle_new_from_file file product_kind None
       end)
      (fun _ => ret ffi_NULL)
  else ret ffi_NULL.

Definition lib_codes_grib_handle_new_from_samples (context : cdata) (samplename : bytes)
  : M St cdata :=
  h <- foreign (c_codes_grib_handle_new_from_samples (address context) samplename)
               (n_codes_grib_handle_new_from_samples lib (address context) samplename) ;;
  new_cdata h.

Definition lib_codes_bufr_handle_new_from_samples (context : cdata) (samplename : bytes)
  : M St cdata :=
  h <- foreign (c_codes_bufr_handle_new_from_samples (address context) samplename)
               (n_codes_bufr_handle_new_from_samples lib (address context) samplename) ;;
  new_cdata h.

Definition codes_new_from_samples (samplename : bytes) (product_kind : Z) : M St cdata :=
  handle <- portable_handle_new_from_samples samplename product_kind ;;
  if negb (cdata_eq handle ffi_NULL) then ret handle
  else
    handle <- (if product_kind =? CODES_PRODUCT_GRIB then
                 lib_codes_grib_handle_new_from_samples ffi_NULL samplename
               else if product_kind =? CODES_PRODUCT_BUFR then
                 lib_codes_bufr_handle_new_from_samples ffi_NULL samplename
               else raise NotImplementedError) ;;
    if cdata_eq handle ffi_NULL then raise ValueError
    else ret handle.

(** *** Array setters *)

Definition lib_codes_set_double_array (handle : cdata) (key : bytes)
    (c_values : list double) (size : nat) : M St (Z * unit) :=
  code <- foreign (c_codes_set_double_array (address handle) key c_values size)
                  (n_codes_set_double_array lib (address handle) key c_values size) ;;
  ret (code, tt).

Definition codes_set_double_array (handle : cdata) (key : bytes) (values : list pyval)
  : M St unit :=
  let size := List.length values in
  c_values <- lift (convert_array convert_double values) ;;
  check_return (lib_codes_set_double_array handle key c_values size).

Definition lib_codes_set_long_array (handle : cdata) (key : bytes)
    (c_values : list Z) (size : nat) : M St (Z * unit) :=
  code <- foreign (c_codes_set_long_array (address handle) key c_values size)
                  (n_codes_set_long_array lib (address handle) key c_values size) ;;
  ret (code, tt).

Definition codes_set_long_array (handle : cdata) (key : bytes) (values : list pyval)
  : M St unit :=
  let size := List.length values in
  c_values <- lift (convert_array (convert_integer (long_bits py)) values) ;;
  check_return (lib_codes_set_long_array handle key c_values size).

Definition codes_set_array (handle : cdata) (key : bytes) (values : list pyval)
  : M St unit :=
  match values with
  | values_0 :: _ =>
      if isinstance values_0 t_float then
        codes_set_double_array handle key values
      else if isinstance values_0 t_int then
        codes_set_long_array handle key values
      else raise TypeError
  | [] => raise ValueError
  end.

End Bindings.

(** The world after one more foreign call has been logged. *)
Definition logged {St : Type} (ev : call) (w : world St) : world St :=
  World (native w) (next_id w) (calls w ++ [ev]) (warnings w).

(** The text [EcCodesError] builds when no message is given. *)
Definition default_message (eccode_message : string) (code : Z) : string :=
  eccode_message ++ " (" ++ str_of_int code ++ ").".

(** ** A small library to run the layer on

    A stand-in for ecCodes with a handful of keys, used by the examples
    below.  Its state is the number of messages the open stream still
    holds. *)

Module Sample.

Definition state : Type := nat.

Definition error_message (code : Z) : bytes :=
  if code =? 0 then "No error"
  else if code =? -1 then "End of resource reached"
  else if code =? -4 then "Function not yet implemented"
  else if code =? -10 then "Key/value not found"
  else if code =? -11 then "Input output problem"
  else if code =? -60 then "Null pointer"
  else "Unknown error code".

(** Stream 13 cannot be read.  At the end of a stream the library returns
    no handle, with status 0 for GRIB and with the end-of-file status for
    the other product kinds. *)
Definition handle_new_from_file (context fileobj kind : Z) (left : state)
  : (Z * Z) * state :=
  if fileobj =? 13 then ((0, -11), left)
  else
    match left with
    | O => if kind =? 1 then ((0, 0), O) else ((0, -1), O)
    | S n => ((4096 + Z.of_nat n, 0), n)
    end.

(** Handles from 8192 on cannot be copied. *)
Definition handle_clone (handle : Z) (s : state) : Z * state :=
  if handle <? 8192 then (handle + 4096, s) else (0, s).

Definition known_key (key : bytes) : bool :=
  existsb (String.eqb key)
          ["level"; "values"; "shortName"; "stationNames"; "bitmap"; "section1"; "identifier"].

Definition select {A : Type} (index : Z) (key : bytes) (value : A) (s : state)
  : Z * state :=
  (if known_key key then 0 else -10, s).

Definition native_type (handle : Z) (key : bytes) (s : state) : (Z * Z) * state :=
  if String.eqb key "level" then ((0, 1), s)
  else if String.eqb key "values" then ((0, 2), s)
  else if String.eqb key "shortName" then ((0, 3), s)
  else if String.eqb key "stationNames" then ((0, 3), s)
  else if String.eqb key "bitmap" then ((0, 4), s)
  else if String.eqb key "section1" then ((0, 5), s)
  else if String.eqb key "identifier" then ((0, 6), s)
  else ((-10, 0), s).

(** [stationNames] counts three values, two of them equal; the size of a
    section cannot be asked for. *)
Definition get_size (handle : Z) (key : bytes) (s : state) : (Z * nat) * state :=
  if String.eqb key "level" then ((0, 1%nat), s)
  else if String.eqb key "values" then ((0, 3%nat), s)
  else if String.eqb key "shortName" then ((0, 1%nat), s)
  else if String.eqb key "stationNames" then ((0, 3%nat), s)
  else if String.eqb key "bitmap" then ((0, 2%nat), s)
  else if String.eqb key "section1" then ((-4, 0%nat), s)
  else if String.eqb key "identifier" then ((0, 1%nat), s)
  else ((-10, 0%nat), s).

Definition get_length (handle : Z) (key : bytes) (s : state) : (Z * nat) * state :=
  if String.eqb key "shortName" then ((0, 3%nat), s)
  else if String.eqb key "stationNames" then ((0, 8%nat), s)
  else if known_key key then ((0, 32%nat), s)
  else ((-10, 0%nat), s).

Definition one : double := Eval cbv in binary_normalize 53 1024 1 0 false.
Definition two : double := Eval cbv in binary_normalize 53 1024 2 0 false.
Definition three : double := Eval cbv in binary_normalize 53 1024 3 0 false.

Definition get_long (handle : Z) (key : bytes) (s : state) : (Z * Z) * state :=
  if String.eqb key "level" then ((0, 500), s) else ((-10, 0), s).

Definition get_double (handle : Z) (key : bytes) (s : state) : (Z * double) * state :=
  if String.eqb key "values" then ((0, one), s) else ((-10, S754_zero false), s).

Definition get_string (handle : Z) (key : bytes) (length : nat) (s : state)
  : (Z * (bytes * nat)) * state :=
  if String.eqb key "shortName" then ((0, ("2t", 3%nat)), s)
  else ((-10, (EmptyString, length)), s).

Definition get_long_array (handle : Z) (key : bytes) (size : nat) (s : state)
  : (Z * (list Z * nat)) * state :=
  if String.eqb key "level" then ((0, (firstn size [500], Nat.min size 1)), s)
  else ((-10, ([], size)), s).

Definition get_double_array (handle : Z) (key : bytes) (size : nat) (s : state)
  : (Z * (list double * nat)) * state :=
  if String.eqb key "values" then ((0, (firstn size [one; two; three], Nat.min size 3)), s)
  else ((-10, ([], size)), s).

(** The strings of [stationNames] are returned once each. *)
Definition get_string_array (handle : Z) (key : bytes) (length size : nat) (s : state)
  : (Z * (list bytes * nat)) * state :=
  if String.eqb key "shortName" then ((0, (firstn size ["2t"], Nat.min size 1)), s)
  else if String.eqb key "stationNames" then
    ((0, (firstn size ["EGLL"; "LFPG"], Nat.min size 2)), s)
  else ((-10, ([], size)), s).

Definition get_bytes (handle : Z) (key : bytes) (size : nat) (s : state)
  : (Z * (list Z * nat)) * state :=
  if String.eqb key "bitmap" then ((0, (firstn size [255; 0], Nat.min size 2)), s)
  else ((-10, ([], size)), s).

Definition set_array {A : Type} (handle : Z) (key : bytes) (values : list A)
    (size : nat) (s : state) : Z * state :=
  (if known_key key then 0 else -10, s).

Definition handle_new_from_samples (name : bytes) (address : Z)
    (context : Z) (samplename : bytes) (s : state) : Z * state :=
  (if String.eqb samplename name then address else 0, s).

Definition lib : eccodes state := {|
  GRIB_SUCCESS := 0;
  GRIB_END_OF_FILE := -1;
  GRIB_NULL_POINTER := -60;
  GRIB_TYPE_UNDEFINED := 0;
  GRIB_TYPE_LONG := 1;
  GRIB_TYPE_DOUBLE := 2;
  GRIB_TYPE_STRING := 3;
  GRIB_TYPE_BYTES := 4;
  GRIB_TYPE_SECTION := 5;
  GRIB_TYPE_LABEL := 6;
  GRIB_TYPE_MISSING := 7;
  n_grib_get_error_message := error_message;
  n_codes_handle_new_from_file := handle_new_from_file;
  n_codes_handle_clone := handle_clone;
  n_codes_index_select_long := select;
  n_codes_index_select_double := select;
  n_codes_index_select_string := select;
  n_codes_get_size := get_size;
  n_codes_get_length := get_length;
  n_codes_get_native_type := native_type;
  n_codes_get_long := get_long;
  n_codes_get_double := get_double;
  n_codes_get_string := get_string;
  n_codes_get_long_array := get_long_array;
  n_codes_get_double_array := get_double_array;
  n_codes_get_string_array := get_string_array;
  n_codes_get_bytes := get_bytes;
  n_codes_set_long_array := set_array;
  n_codes_set_double_array := set_array;
  n_codes_get_api_version := fun s => (21400, s);
  n_codes_samples_path := fun _ s => (Some "/usr/share/eccodes/samples", s);
  n_codes_grib_handle_new_from_samples := handle_new_from_samples "GRIB2" 8192;
  n_codes_bufr_handle_new_from_samples := handle_new_from_samples "BUFR4" 8200
|}.

(** A 64-bit POSIX host with no sample files on disk. *)
Definition py : host := {|
  is_windows := false;
  long_bits := 64;
  os_path_join := fun a b => a ++ "/" ++ b;
  open_file := fun _ => None
|}.

(** A Windows host (32-bit [long]) where every sample file opens as
    stream 7. *)
Definition windows : host := {|
  is_windows := true;
  long_bits := 32;
  os_path_join := fun a b => a ++ "\" ++ b;
  open_file := fun _ => Some 7
|}.

(** The world at start: [left] messages in the stream, nothing logged. *)
Definition start (left : nat) : world state := World left 2 [] [].

(** A message handle and an index handle obtained earlier. *)
Definition a_handle : cdata := CData 1 4096.
Definition an_index : cdata := CData 2 12288.

End Sample.




(** The foreign call a wrapper adds when the status is not
    [GRIB_SUCCESS]: the one that asks for the message of the status. *)
Definition error_report {St : Type} (lib : eccodes St) (code : Z) : list call :=
  if code =? GRIB_SUCCESS lib then [] else [c_grib_get_error_message code].

(** The world after one more record has been sent to the logger. *)
Definition warned {St : Type} (text : string) (w : world St) : world St :=
  World (native w) (next_id w) (calls w) (warnings w ++ [text])%list.

(** [s.split(sep)] for a one-character separator. *)
Fixpoint split_on (sep : ascii) (s : string) : list string :=
  match s with
  | EmptyString => [EmptyString]
  | String c r =>
      if Ascii.eqb c sep then EmptyString :: split_on sep r
      else
        match split_on sep r with
        | [] => [String c EmptyString]
        | x :: xs => String c x :: xs
        end
  end.

Fixpoint has_char (c : ascii) (s : string) : bool :=
  match s with
  | EmptyString => false
  | String a r => Ascii.eqb a c || has_char c r
  end.

(** [item] is [stored] cut at its first NUL byte: it holds no NUL, and
    [stored] goes on after it with a NUL or not at all. *)
Definition cut_at_NUL (stored item : bytes) : Prop :=
  has_char zero item = false /\
  exists rest, stored = (item ++ rest)%string /\
               (rest = EmptyString \/ exists rest', rest = String zero rest').

(** ** Further entry points: indexes, scalar setters, message bytes

    The entry points behind [codes_index_new_from_file], the
    [codes_index_get] family, [codes_new_from_index], [codes_set] and
    [codes_write].  They run on the same library state; their calls, and
    what is written to files, are logged next to that state. *)

Inductive more_call : Type :=
| c_codes_index_new_from_file (context : Z) (path keys : bytes)
| c_codes_handle_new_from_index (index : Z)
| c_codes_index_get_size (index : Z) (key : bytes)
| c_codes_index_get_long (index : Z) (key : bytes) (size : nat)
| c_codes_index_get_double (index : Z) (key : bytes) (size : nat)
| c_codes_index_get_string (index : Z) (key : bytes) (length size : nat)
| c_codes_set_long (handle : Z) (key : bytes) (value : Z)
| c_codes_set_double (handle : Z) (key : bytes) (value : double)
| c_codes_set_string (handle : Z) (key : bytes) (value : bytes) (size : nat)
| c_codes_get_message (handle : Z).

(** As in [eccodes]: an entry point with out-parameters returns what it
    stores in them next to its status.  [n_codes_get_message] stores a
    pointer and a length; it is given here by the memory found at that
    pointer and the length. *)
Record eccodes_more (St : Type) : Type := {
  n_codes_index_new_from_file : Z -> bytes -> bytes -> St -> (Z * Z) * St;
  n_codes_handle_new_from_index : Z -> St -> (Z * Z) * St;
  n_codes_index_get_size : Z -> bytes -> St -> (Z * nat) * St;
  n_codes_index_get_long : Z -> bytes -> nat -> St -> (Z * (list Z * nat)) * St;
  n_codes_index_get_double : Z -> bytes -> nat -> St -> (Z * (list double * nat)) * St;
  n_codes_index_get_string : Z -> bytes -> nat -> nat -> St -> (Z * (list bytes * nat)) * St;
  n_codes_set_long : Z -> bytes -> Z -> St -> Z * St;
  n_codes_set_double : Z -> bytes -> double -> St -> Z * St;
  n_codes_set_string : Z -> bytes -> bytes -> nat -> St -> Z * St;
  n_codes_get_message : Z -> St -> (Z * (bytes * nat)) * St
}.

Arguments n_codes_index_new_from_file {St} _ _ _ _ _.
Arguments n_codes_handle_new_from_index {St} _ _ _.
Arguments n_codes_index_get_size {St} _ _ _ _.
Arguments n_codes_index_get_long {St} _ _ _ _ _.
Arguments n_codes_index_get_double {St} _ _ _ _ _.
Arguments n_codes_index_get_string {St} _ _ _ _ _ _.
Arguments n_codes_set_long {St} _ _ _ _ _.
Arguments n_codes_set_double {St} _ _ _ _ _.
Arguments n_codes_set_string {St} _ _ _ _ _ _.
Arguments n_codes_get_message {St} _ _ _.

(** The library state with the log of these calls and the data written to
    files, each file named by its [FILE *]. *)
Record ext (St : Type) : Type := Ext {
  base : St;
  more_calls : list more_call;
  written_to : list (Z * bytes)
}.
Arguments Ext {St} _ _ _.
Arguments base {St} _.
Arguments more_calls {St} _.
Arguments written_to {St} _.

Definition on_base {St A : Type} (f : St -> A * St) (x : ext St) : A * ext St :=
  let (a, s) := f (base x) in (a, Ext s (more_calls x) (written_to x)).

(** The library of [eccodes] run on the extended state. *)
Definition with_ext {St : Type} (lib : eccodes St) : eccodes (ext St) := {|
  GRIB_SUCCESS := GRIB_SUCCESS lib;
  GRIB_END_OF_FILE := GRIB_END_OF_FILE lib;
  GRIB_NULL_POINTER := GRIB_NULL_POINTER lib;
  GRIB_TYPE_UNDEFINED := GRIB_TYPE_UNDEFINED lib;
  GRIB_TYPE_LONG := GRIB_TYPE_LONG lib;
  GRIB_TYPE_DOUBLE := GRIB_TYPE_DOUBLE lib;
  GRIB_TYPE_STRING := GRIB_TYPE_STRING lib;
  GRIB_TYPE_BYTES := GRIB_TYPE_BYTES lib;
  GRIB_TYPE_SECTION := GRIB_TYPE_SECTION lib;
  GRIB_TYPE_LABEL := GRIB_TYPE_LABEL lib;
  GRIB_TYPE_MISSING := GRIB_TYPE_MISSING lib;
  n_grib_get_error_message := n_grib_get_error_message lib;
  n_codes_handle_new_from_file := fun c f k => on_base (n_codes_handle_new_from_file lib c f k);
  n_codes_handle_clone := fun h => on_base (n_codes_handle_clone lib h);
  n_codes_index_select_long := fun i k v => on_base (n_codes_index_select_long lib i k v);
  n_codes_index_select_double := fun i k v => on_base (n_codes_index_select_double lib i k v);
  n_codes_index_select_string := fun i k v => on_base (n_codes_index_select_string lib i k v);
  n_codes_get_size := fun h k => on_base (n_codes_get_size lib h k);
  n_codes_get_length := fun h k => on_base (n_codes_get_length lib h k);
  n_codes_get_native_type := fun h k => on_base (n_codes_get_native_type lib h k);
  n_codes_get_long := fun h k => on_base (n_codes_get_long lib h k);
  n_codes_get_double := fun h k => on_base (n_codes_get_double lib h k);
  n_codes_get_string := fun h k n => on_base (n_codes_get_string lib h k n);
  n_codes_get_long_array := fun h k n => on_base (n_codes_get_long_array lib h k n);
  n_codes_get_double_array := fun h k n => on_base (n_codes_get_double_array lib h k n);
  n_codes_get_string_array := fun h k l n => on_base (n_codes_get_string_array lib h k l n);
  n_codes_get_bytes := fun h k n => on_base (n_codes_get_bytes lib h k n);
  n_codes_set_long_array := fun h k v n => on_base (n_codes_set_long_array lib h k v n);
  n_codes_set_double_array := fun h k v n => on_base (n_codes_set_double_array lib h k v n);
  n_codes_get_api_version := on_base (n_codes_get_api_version lib);
  n_codes_samples_path := fun c => on_base (n_codes_samples_path lib c);
  n_codes_grib_handle_new_from_samples :=
    fun c n => on_base (n_codes_grib_handle_new_from_samples lib c n);
  n_codes_bufr_handle_new_from_samples :=
    fun c n => on_base (n_codes_bufr_handle_new_from_samples lib c n)
|}.

(** One of these foreign calls: logged, then run on the library's state. *)
Definition foreign_more {St A : Type} (ev : more_call) (f : St -> A * St) : M (ext St) A :=
  fun w =>
    let (a, s) := f (base (native w)) in
    (Ok a,
     World (Ext s (more_calls (native w) ++ [ev])%list (written_to (native w)))
           (next_id w) (calls w) (warnings w)).

(** [outfile.write(data)] *)
Definition file_write {St : Type} (outfile : Z) (data : bytes) : M (ext St) unit :=
  fun w =>
    (Ok tt,
     World (Ext (base (native w)) (more_calls (native w))
                (written_to (native w) ++ [(outfile, data)])%list)
           (next_id w) (calls w) (warnings w)).

(** [sep.join(items)] on bytes *)
Fixpoint bytes_join (sep : bytes) (items : list bytes) : bytes :=
  match items with
  | [] => EmptyString
  | [item] => item
  | item :: rest => item ++ sep ++ bytes_join sep rest
  end.


(** [ffi.buffer(p, size)]: the first [size] bytes of the memory at [p]. *)
Definition ffi_buffer (memory : bytes) (size : nat) : bytes :=
  String.substring 0 size memory.

(** The default of the [length] argument of [codes_index_get_string]. *)
Definition codes_index_get_string_length : nat := 256.

Section MoreBindings.

Context {St : Type}.
Variable lib : eccodes St.
Variable more : eccodes_more St.
Variable py : host.

(** *** Indexes *)

Definition lib_codes_index_new_from_file (context : cdata) (path keys : bytes)
  : M (ext St) (cdata * Z) :=
  '(h, code) <- foreign_more (c_codes_index_new_from_file (address context) path keys)
                  (n_codes_index_new_from_file more (address context) path keys) ;;
  retval <- new_cdata h ;;
  ret (retval, code).

Definition codes_index_new_from_file (path : bytes) (keys : list bytes)
  : M (ext St) cdata :=
  let keys_enc := bytes_join "," keys in
  check_last (with_ext lib) (lib_codes_index_new_from_file ffi_NULL path keys_enc).

Definition lib_codes_handle_new_from_index (indexid : cdata) : M (ext St) (cdata * Z) :=
  '(h, code) <- foreign_more (c_codes_handle_new_from_index (address indexid))
                  (n_codes_handle_new_from_index more (address indexid)) ;;
  retval <- new_cdata h ;;
  ret (retval, code).

Definition codes_new_from_index (indexid : cdata) : M (ext St) cdata :=
  check_last (with_ext lib) (lib_codes_handle_new_from_index indexid).

Definition lib_codes_index_get_size (indexid : cdata) (key : bytes)
  : M (ext St) (Z * nat) :=
  foreign_more (c_codes_index_get_size (address indexid) key)
               (n_codes_index_get_size more (address indexid) key).

Definition codes_index_get_size (indexid : cdata) (key : bytes) : M (ext St) nat :=
  check_return (with_ext lib) (lib_codes_index_get_size indexid key).

Definition lib_codes_index_get_long (indexid : cdata) (key : bytes) (size : nat)
  : M (ext St) (Z * (list Z * nat)) :=
  foreign_more (c_codes_index_get_long (address indexid) key size)
               (n_codes_index_get_long more (address indexid) key size).

Definition codes_index_get_long (indexid : cdata) (key : bytes) : M (ext St) (list Z) :=
  size <- codes_index_get_size indexid key ;;
  '(written, _) <- check_return (with_ext lib) (lib_codes_index_get_long indexid key size) ;;
  ret (buffer size 0 written).

Definition lib_codes_index_get_double (indexid : cdata) (key : bytes) (size : nat)
  : M (ext St) (Z * (list double * nat)) :=
  foreign_more (c_codes_index_get_double (address indexid) key size)
               (n_codes_index_get_double more (address indexid) key size).

Definition codes_index_get_double (indexid : cdata) (key : bytes)
  : M (ext St) (list double) :=
  size <- codes_index_get_size indexid key ;;
  '(written, _) <- check_return (with_ext lib) (lib_codes_index_get_double indexid key size) ;;
  ret (buffer size (S754_zero false) written).

Definition lib_codes_index_get_string (indexid : cdata) (key : bytes) (length size : nat)
  : M (ext St) (Z * (list bytes * nat)) :=
  foreign_more (c_codes_index_get_string (address indexid) key length size)
               (n_codes_index_get_string more (address indexid) key length size).

Definition codes_index_get_string (indexid : cdata) (key : bytes) (length : nat)
  : M (ext St) (list bytes) :=
  size <- codes_index_get_size indexid key ;;
  '(written, size_p) <-
    check_return (with_ext lib) (lib_codes_index_get_string indexid key length size) ;;
  let values := buffer size EmptyString written in
  if (size_p <=? size)%nat then
    ret (map (fun v => ffi_string v (String.length v)) (firstn size_p values))
  else raise IndexError.

(** [ktype] is one of the type objects [int], [float], [bytes], compared
    by identity. *)
Definition codes_index_get (indexid : cdata) (key : bytes) (ktype : pytype)
  : M (ext St) pyval :=
  if pytype_eqb ktype t_int then
    result <- codes_index_get_long indexid key ;; ret (PyList (map PyInt result))
  else if pytype_eqb ktype t_float then
    result <- codes_index_get_double indexid key ;; ret (PyList (map PyFloat result))
  else if pytype_eqb ktype t_bytes then
    result <- codes_index_get_string indexid key codes_index_get_string_length ;;
    ret (PyList (map PyBytes result))
  else raise TypeError.

(** *** Scalar setters *)








(** *** Writing a message *)

Definition lib_codes_get_message (handle : cdata) : M (ext St) (Z * (bytes * nat)) :=
  foreign_more (c_codes_get_message (address handle))
               (n_codes_get_message more (address handle)).

Definition codes_write (handle : cdata) (outfile : Z) : M (ext St) unit :=
  '(mess, mess_len) <- check_return (with_ext lib) (lib_codes_get_message handle) ;;
  let message := ffi_buffer mess mess_len in
  file_write outfile message.

End MoreBindings.

(** ** The sample library, continued *)

Module SampleMore.

(** File [missing.grib] does not exist. *)
Definition index_new_from_file (context : Z) (path keys : bytes) (s : Sample.state)
  : (Z * Z) * Sample.state :=
  if String.eqb path "missing.grib" then ((0, -11), s) else ((12288, 0), s).

(** The messages of the index are those left in the stream; past the last
    one the library returns no handle and the end-of-file status. *)
Definition handle_new_from_index (index : Z) (left : Sample.state)
  : (Z * Z) * Sample.state :=
  match left with
  | O => ((0, -1), O)
  | S n => ((4096 + Z.of_nat n, 0), n)
  end.

Definition index_get_size (index : Z) (key : bytes) (s : Sample.state)
  : (Z * nat) * Sample.state :=
  if String.eqb key "level" then ((0, 2%nat), s)
  else if String.eqb key "shortName" then ((0, 2%nat), s)
  else if String.eqb key "number" then ((0, 1%nat), s)
  else ((-10, 0%nat), s).

Definition index_get_long (index : Z) (key : bytes) (size : nat) (s : Sample.state)
  : (Z * (list Z * nat)) * Sample.state :=
  if String.eqb key "level" then ((0, (firstn size [500; 850], Nat.min size 2)), s)
  else ((-10, ([], size)), s).

Definition index_get_double (index : Z) (key : bytes) (size : nat) (s : Sample.state)
  : (Z * (list double * nat)) * Sample.state :=
  if String.eqb key "level" then
    ((0, (firstn size [Sample.one; Sample.two], Nat.min size 2)), s)
  else ((-10, ([], size)), s).

(** For [number] the library reports two strings where one cell was
    asked for. *)
Definition index_get_string (index : Z) (key : bytes) (length size : nat)
    (s : Sample.state) : (Z * (list bytes * nat)) * Sample.state :=
  if String.eqb key "shortName" then ((0, (firstn size ["2t"; "msl"], Nat.min size 2)), s)
  else if String.eqb key "number" then ((0, (firstn size ["0"], 2%nat)), s)
  else ((-10, ([], size)), s).

Definition set_value {A : Type} (handle : Z) (key : bytes) (value : A) (s : Sample.state)
  : Z * Sample.state :=
  (if Sample.known_key key then 0 else -10, s).

Definition set_string (handle : Z) (key : bytes) (value : bytes) (size : nat)
    (s : Sample.state) : Z * Sample.state :=
  (if Sample.known_key key then 0 else -10, s).

(** Handles below 8192 hold a message of twelve bytes. *)
Definition get_message (handle : Z) (s : Sample.state)
  : (Z * (bytes * nat)) * Sample.state :=
  if handle <? 8192 then ((0, ("GRIB00027777", 12%nat)), s)
  else ((-60, (EmptyString, 0%nat)), s).

Definition more : eccodes_more Sample.state := {|
  n_codes_index_new_from_file := index_new_from_file;
  n_codes_handle_new_from_index := handle_new_from_index;
  n_codes_index_get_size := index_get_size;
  n_codes_index_get_long := index_get_long;
  n_codes_index_get_double := index_get_double;
  n_codes_index_get_string := index_get_string;
  n_codes_set_long := set_value;
  n_codes_set_double := set_value;
  n_codes_set_string := set_string;
  n_codes_get_message := get_message
|}.

(** The world at start, with empty logs and nothing written. *)
Definition start (left : nat) : world (ext Sample.state) :=
  World (Ext left [] []) 2 [] [].

(** [lib] with another table of messages and another samples path. *)
Definition altered {St : Type} (lib : eccodes St) (message : Z -> bytes)
    (samples : option bytes) : eccodes St := {|
  GRIB_SUCCESS := GRIB_SUCCESS lib;
  GRIB_END_OF_FILE := GRIB_END_OF_FILE lib;
  GRIB_NULL_POINTER := GRIB_NULL_POINTER lib;
  GRIB_TYPE_UNDEFINED := GRIB_TYPE_UNDEFINED lib;
  GRIB_TYPE_LONG := GRIB_TYPE_LONG lib;
  GRIB_TYPE_DOUBLE := GRIB_TYPE_DOUBLE lib;
  GRIB_TYPE_STRING := GRIB_TYPE_STRING lib;
  GRIB_TYPE_BYTES := GRIB_TYPE_BYTES lib;
  GRIB_TYPE_SECTION := GRIB_TYPE_SECTION lib;
  GRIB_TYPE_LABEL := GRIB_TYPE_LABEL lib;
  GRIB_TYPE_MISSING := GRIB_TYPE_MISSING lib;
  n_grib_get_error_message := message;
  n_codes_handle_new_from_file := n_codes_handle_new_from_file lib;
  n_codes_handle_clone := n_codes_handle_clone lib;
  n_codes_index_select_long := n_codes_index_select_long lib;
  n_codes_index_select_double := n_codes_index_select_double lib;
  n_codes_index_select_string := n_codes_index_select_string lib;
  n_codes_get_size := n_codes_get_size lib;
  n_codes_get_length := n_codes_get_length lib;
  n_codes_get_native_type := n_codes_get_native_type lib;
  n_codes_get_long := n_codes_get_long lib;
  n_codes_get_double := n_codes_get_double lib;
  n_codes_get_string := n_codes_get_string lib;
  n_codes_get_long_array := n_codes_get_long_array lib;
  n_codes_get_double_array := n_codes_get_double_array lib;
  n_codes_get_string_array := n_codes_get_string_array lib;
  n_codes_get_bytes := n_codes_get_bytes lib;
  n_codes_set_long_array := n_codes_set_long_array lib;
  n_codes_set_double_array := n_codes_set_double_array lib;
  n_codes_get_api_version := n_codes_get_api_version lib;
  n_codes_samples_path := fun _ s => (samples, s);
  n_codes_grib_handle_new_from_samples := n_codes_grib_handle_new_from_samples lib;
  n_codes_bufr_handle_new_from_samples := n_codes_bufr_handle_new_from_samples lib
|}.

(** A build whose samples path is null. *)
Definition no_samples : eccodes Sample.state :=
  altered Sample.lib Sample.error_message None.

(** A build whose messages are in Latin-1: 233 is e acute. *)
Definition latin1_message (code : Z) : bytes :=
  if code =? -10 then String "C" (String "l" (String (ascii_of_nat 233) "introuvable"))
  else Sample.error_message code.

Definition latin1 : eccodes Sample.state :=
  altered Sample.lib latin1_message (Some "/usr/share/eccodes/samples").

End SampleMore.

(** * Properties *)

Section Properties.

Context {St : Type}.
Variable lib : eccodes St.
Variable py : host.

Local Open Scope list_scope.

(** ** Error translation *)

Lemma decode_ascii_ok (b : bytes) :
  is_ascii b = true -> decode_ascii b = Ok b.
Proof.
  induction b as [|c r IH]; cbn; [reflexivity|].
  intros H. apply andb_prop in H as [Hc Hr].
  rewrite Hc, (IH Hr). reflexivity.
Qed.

Lemma grib_get_error_message_run (code : Z) (w : world St) :
  is_ascii (n_grib_get_error_message lib code) = true ->
  grib_get_error_message lib code w =
    (Ok (n_grib_get_error_message lib code), logged (c_grib_get_error_message code) w).
Proof.
  intros H. unfold grib_get_error_message, lib_grib_get_error_message, bind, foreign, lift, ENC.
  cbn. rewrite (decode_ascii_ok _ H). reflexivity.
Qed.

Lemma EcCodesError_init_run (code : Z) (w : world St) :
  is_ascii (n_grib_get_error_message lib code) = true ->
  EcCodesError_init lib code None w =
    (Ok (EcCodesError code (n_grib_get_error_message lib code)
           (default_message (n_grib_get_error_message lib code) code)),
     logged (c_grib_get_error_message code) w).
Proof.
  intros H. unfold EcCodesError_init, bind.
  rewrite (grib_get_error_message_run _ _ H). reflexivity.
Qed.

Lemma check_last_success {A : Type} (func : M St (A * Z)) (w w1 : world St) (retval : A) :
  func w = (Ok (retval, GRIB_SUCCESS lib), w1) ->
  check_last lib func w = (Ok retval, w1).
Proof.
  intros H. unfold check_last, bind. rewrite H, Z.eqb_refl. reflexivity.
Qed.

Lemma check_last_failure {A : Type} (func : M St (A * Z)) (w w1 : world St)
    (retval : A) (code : Z) :
  func w = (Ok (retval, code), w1) ->
  code <> GRIB_SUCCESS lib ->
  is_ascii (n_grib_get_error_message lib code) = true ->
  check_last lib func w =
    (Raise (EcCodesError code (n_grib_get_error_message lib code)
              (default_message (n_grib_get_error_message lib code) code)),
     logged (c_grib_get_error_message code) w1).
Proof.
  intros H Hc Ha. unfold check_last, bind. rewrite H.
  apply Z.eqb_neq in Hc. rewrite Hc. cbn -[EcCodesError_init].
  rewrite (EcCodesError_init_run _ _ Ha). reflexivity.
Qed.

Lemma check_return_success {B : Type} (func : M St (Z * B)) (w w1 : world St) (stored : B) :
  func w = (Ok (GRIB_SUCCESS lib, stored), w1) ->
  check_return lib func w = (Ok stored, w1).
Proof.
  intros H. unfold check_return, bind. rewrite H, Z.eqb_refl. reflexivity.
Qed.

Lemma check_return_failure {B : Type} (func : M St (Z * B)) (w w1 : world St)
    (stored : B) (code : Z) :
  func w = (Ok (code, stored), w1) ->
  code <> GRIB_SUCCESS lib ->
  is_ascii (n_grib_get_error_message lib code) = true ->
  check_return lib func w =
    (Raise (EcCodesError code (n_grib_get_error_message lib code)
              (default_message (n_grib_get_error_message lib code) code)),
     logged (c_grib_get_error_message code) w1).
Proof.
  intros H Hc Ha. unfold check_return, bind. rewrite H.
  apply Z.eqb_neq in Hc. rewrite Hc. cbn -[EcCodesError_init].
  rewrite (EcCodesError_init_run _ _ Ha). reflexivity.
Qed.

(** A failure inside the wrapped call (a marshalling error) passes through
    both wrappers. *)
Lemma check_return_raise {B : Type} (func : M St (Z * B)) (w w1 : world St) (e : exn) :
  func w = (Raise e, w1) -> check_return lib func w = (Raise e, w1).
Proof. intros H. unfold check_return, bind. rewrite H. reflexivity. Qed.

(** C6: a call wrapped by [check_last] or [check_return] returns normally
    when the status is [GRIB_SUCCESS]; for any other status it raises
    [EcCodesError] whose [code] is that status and whose [eccode_message] is
    the library's message for it (an ASCII C string, as [ENC] has it). *)
Theorem check_wrappers_raise_EcCodesError :
  forall (A B : Type),
    (forall (func : M St (A * Z)) (w w1 : world St) (retval : A) (code : Z),
       func w = (Ok (retval, code), w1) ->
       (code = GRIB_SUCCESS lib -> check_last lib func w = (Ok retval, w1)) /\
       (code <> GRIB_SUCCESS lib ->
        is_ascii (n_grib_get_error_message lib code) = true ->
        let description := n_grib_get_error_message lib code in
        check_last lib func w =
          (Raise (EcCodesError code description (default_message description code)),
           logged (c_grib_get_error_message code) w1))) /\
    (forall (func : M St (Z * B)) (w w1 : world St) (stored : B) (code : Z),
       func w = (Ok (code, stored), w1) ->
       (code = GRIB_SUCCESS lib -> check_return lib func w = (Ok stored, w1)) /\
       (code <> GRIB_SUCCESS lib ->
        is_ascii (n_grib_get_error_message lib code) = true ->
        let description := n_grib_get_error_message lib code in
        check_return lib func w =
          (Raise (EcCodesError code description (default_message description code)),
           logged (c_grib_get_error_message code) w1))).
Proof.
  intros A B. split.
  - intros func w w1 retval code H. split.
    + intros ->. apply check_last_success; assumption.
    + intros Hc Ha description. apply (check_last_failure _ _ _ _ _ H Hc Ha).
  - intros func w w1 stored code H. split.
    + intros ->. apply check_return_success; assumption.
    + intros Hc Ha description. apply (check_return_failure _ _ _ _ _ H Hc Ha).
Qed.

(** ** Reading a message from a stream *)

(** C1: when no message is left, [codes_handle_new_from_file] raises
    [EOFError] in both shapes the library reports it: a null handle with the
    status [GRIB_SUCCESS], and the status [GRIB_END_OF_FILE].  Any other
    status that is not [GRIB_SUCCESS] is raised as [EcCodesError] with that
    code. *)
Theorem codes_handle_new_from_file_end_of_input :
  forall (fileobj product_kind : Z) (context : option cdata)
         (w w1 : world St) (retval : cdata) (code : Z),
    lib_codes_handle_new_from_file lib (or_NULL context) fileobj product_kind w
      = (Ok (retval, code), w1) ->
    GRIB_END_OF_FILE lib <> GRIB_SUCCESS lib ->
    (code <> GRIB_SUCCESS lib ->
     is_ascii (n_grib_get_error_message lib code) = true) ->
    (code = GRIB_SUCCESS lib -> address retval = 0 ->
     codes_handle_new_from_file lib fileobj product_kind context w
       = (Raise EOFError, w1)) /\
    (code = GRIB_END_OF_FILE lib ->
     codes_handle_new_from_file lib fileobj product_kind context w
       = (Raise EOFError, logged (c_grib_get_error_message code) w1)) /\
    (code <> GRIB_SUCCESS lib -> code <> GRIB_END_OF_FILE lib ->
     codes_handle_new_from_file lib fileobj product_kind context w
       = (Raise (EcCodesError code (n_grib_get_error_message lib code)
                   (default_message (n_grib_get_error_message lib code) code)),
          logged (c_grib_get_error_message code) w1)) /\
    (code = GRIB_SUCCESS lib -> address retval <> 0 ->
     codes_handle_new_from_file lib fileobj product_kind context w
       = (Ok retval, w1)).
Proof.
  intros fileobj kind context w w1 retval code Hcall Heof Hascii.
  unfold codes_handle_new_from_file, try_except, bind.
  repeat split.
  - intros -> Hnull.
    rewrite (check_last_success _ _ _ _ Hcall).
    unfold cdata_eq. rewrite Hnull. reflexivity.
  - intros ->.
    rewrite (check_last_failure _ _ _ _ _ Hcall Heof (Hascii Heof)).
    rewrite Z.eqb_refl. reflexivity.
  - intros Hc He.
    rewrite (check_last_failure _ _ _ _ _ Hcall Hc (Hascii Hc)).
    apply Z.eqb_neq in He. rewrite He. reflexivity.
  - intros -> Hnn.
    rewrite (check_last_success _ _ _ _ Hcall).
    unfold cdata_eq. apply Z.eqb_neq in Hnn. cbn. rewrite Hnn. reflexivity.
Qed.

(** ** Cloning a handle *)

(** [codes_handle_clone] compares the object the foreign call returned with
    [ffi.NULL] by identity: the call returns a new object each time, so the
    test never holds and the handle is returned whatever its address. *)
Lemma codes_handle_clone_run (handle : cdata) (w : world St) :
  codes_handle_clone lib handle w =
    (Ok (CData (S (next_id w)) (fst (n_codes_handle_clone lib (address handle) (native w)))),
     World (snd (n_codes_handle_clone lib (address handle) (native w)))
           (S (next_id w))
           (calls w ++ [c_codes_handle_clone (address handle)])
           (warnings w)).
Proof.
  unfold codes_handle_clone, lib_codes_handle_clone, bind, foreign, new_cdata.
  destruct (n_codes_handle_clone lib (address handle) (native w)) as [h s].
  reflexivity.
Qed.

(** ** Selecting on an index *)

Lemma EcCodesError_init_world (code : Z) (w : world St) :
  snd (bind (EcCodesError_init lib code None) (fun ex => @raise St unit ex) w)
    = logged (c_grib_get_error_message code) w.
Proof.
  unfold EcCodesError_init, grib_get_error_message, lib_grib_get_error_message,
    bind, foreign, lift, ENC, raise.
  cbn. destruct (decode_ascii (n_grib_get_error_message lib code)); reflexivity.
Qed.

(** The foreign calls a wrapped call adds to the log. *)
Lemma check_return_calls (func : M St (Z * unit)) (w w1 : world St) (code : Z) :
  func w = (Ok (code, tt), w1) ->
  calls (snd (check_return lib func w)) = calls w1 ++ error_report lib code.
Proof.
  intros H. unfold check_return, bind, error_report. rewrite H.
  destruct (code =? GRIB_SUCCESS lib); cbn -[EcCodesError_init].
  - rewrite app_nil_r. reflexivity.
  - pose proof (EcCodesError_init_world code w1) as E. unfold bind, raise in E.
    unfold raise. rewrite E. reflexivity.
Qed.

Lemma isinstance_int_not_float (v : pyval) :
  isinstance v t_int = true -> isinstance v t_float = false.
Proof. destruct v; cbn; congruence. Qed.

(** C2 (as amended): an [int] that fits a C [long] goes to the native
    long select and to no other select; a [float] to the double select;
    [bytes] to the string select; a value of any other type raises
    [RuntimeError] and no foreign call is issued.  An [int] outside the
    range of a C [long] raises [OverflowError] and no foreign call is
    issued. *)
Theorem codes_index_select_by_type :
  forall (indexid : cdata) (key : bytes) (value : pyval) (w : world St),
    (forall v, isinstance value t_int = true ->
               convert_integer (long_bits py) value = Ok v ->
       calls (snd (codes_index_select lib py indexid key value w)) =
         calls w ++ c_codes_index_select_long (address indexid) key v ::
           error_report lib
             (fst (n_codes_index_select_long lib (address indexid) key v (native w)))) /\
    (forall d, value = PyFloat d ->
       calls (snd (codes_index_select lib py indexid key value w)) =
         calls w ++ c_codes_index_select_double (address indexid) key d ::
           error_report lib
             (fst (n_codes_index_select_double lib (address indexid) key d (native w)))) /\
    (forall b, value = PyBytes b ->
       calls (snd (codes_index_select lib py indexid key value w)) =
         calls w ++ c_codes_index_select_string (address indexid) key b ::
           error_report lib
             (fst (n_codes_index_select_string lib (address indexid) key b (native w)))) /\
    (isinstance value t_int = false -> isinstance value t_float = false ->
     isinstance value t_bytes = false ->
       codes_index_select lib py indexid key value w = (Raise RuntimeError, w)) /\
    (forall z, value = PyInt z -> fits (long_bits py) z = false ->
       codes_index_select lib py indexid key value w = (Raise OverflowError, w)).
Proof.
  intros indexid key value w. repeat split.
  5:{ intros z -> Hz. unfold codes_index_select.
      cbn [isinstance type_of issubclass pytype_eqb orb].
      unfold codes_index_select_long, check_return, lib_codes_index_select_long, bind, lift.
      cbn [convert_integer]. rewrite Hz. reflexivity. }
  - intros v Hi Hv. unfold codes_index_select. rewrite Hi.
    unfold codes_index_select_long.
    destruct (n_codes_index_select_long lib (address indexid) key v (native w))
      as [code s] eqn:E.
    rewrite (check_return_calls _ w
               (logged (c_codes_index_select_long (address indexid) key v)
                       (World s (next_id w) (calls w) (warnings w))) code).
    + cbn. rewrite <- app_assoc. reflexivity.
    + unfold lib_codes_index_select_long, bind, lift, foreign, ret, logged.
      rewrite Hv, E. reflexivity.
  - intros d ->. unfold codes_index_select. cbn [isinstance type_of issubclass pytype_eqb orb].
    unfold codes_index_select_double.
    destruct (n_codes_index_select_double lib (address indexid) key d (native w))
      as [code s] eqn:E.
    rewrite (check_return_calls _ w
               (logged (c_codes_index_select_double (address indexid) key d)
                       (World s (next_id w) (calls w) (warnings w))) code).
    + cbn. rewrite <- app_assoc. reflexivity.
    + unfold lib_codes_index_select_double, bind, lift, foreign, ret, logged.
      cbn. rewrite E. reflexivity.
  - intros b ->. unfold codes_index_select. cbn [isinstance type_of issubclass pytype_eqb orb].
    unfold codes_index_select_string.
    destruct (n_codes_index_select_string lib (address indexid) key b (native w))
      as [code s] eqn:E.
    rewrite (check_return_calls _ w
               (logged (c_codes_index_select_string (address indexid) key b)
                       (World s (next_id w) (calls w) (warnings w))) code).
    + cbn. rewrite <- app_assoc. reflexivity.
    + unfold lib_codes_index_select_string, bind, lift, foreign, ret, logged.
      cbn. rewrite E. reflexivity.
  - intros Hi Hf Hb. unfold codes_index_select. rewrite Hi, Hf, Hb. reflexivity.
Qed.

(** ** Setting an array *)











(** C4: an empty sequence raises [ValueError] and a first item that is
    neither [int] nor [float] raises [TypeError], both before any foreign
    call; a [float] first item selects [codes_set_double_array] and an [int]
    first item [codes_set_long_array]. *)
Theorem codes_set_array_by_first_item :
  forall (handle : cdata) (key : bytes) (values : list pyval) (w : world St),
    (values = [] ->
       codes_set_array lib py handle key values w = (Raise ValueError, w)) /\
    (forall v rest, values = v :: rest ->
       isinstance v t_int = false -> isinstance v t_float = false ->
       codes_set_array lib py handle key values w = (Raise TypeError, w)) /\
    (forall v rest, values = v :: rest -> isinstance v t_float = true ->
       codes_set_array lib py handle key values
         = codes_set_double_array lib handle key values) /\
    (forall v rest, values = v :: rest -> isinstance v t_int = true ->
       codes_set_array lib py handle key values
         = codes_set_long_array lib py handle key values).
Proof.
  intros handle key values w. repeat split.
  - intros ->. reflexivity.
  - intros v rest -> Hi Hf. unfold codes_set_array. rewrite Hf, Hi. reflexivity.
  - intros v rest -> Hf. unfold codes_set_array. rewrite Hf. reflexivity.
  - intros v rest -> Hi. unfold codes_set_array.
    rewrite (isinstance_int_not_float _ Hi), Hi. reflexivity.
Qed.





(** ** Reading an array *)

Lemma buffer_length {A : Type} (size : nat) (zero : A) (written : list A) :
  length (buffer size zero written) = size.
Proof.
  unfold buffer. rewrite length_firstn, length_app, repeat_length. lia.
Qed.

Lemma codes_get_long_array_run (handle : cdata) (key : bytes) (size : nat) (w : world St)
    (written : list Z) (size_p : nat) (s : St) :
  n_codes_get_long_array lib (address handle) key size (native w)
    = ((GRIB_SUCCESS lib, (written, size_p)), s) ->
  codes_get_long_array lib handle key size w =
    (Ok (buffer size 0 written),
     logged (c_codes_get_long_array (address handle) key size)
            (World s (next_id w) (calls w) (warnings w))).
Proof.
  intros H. unfold codes_get_long_array, bind.
  rewrite (check_return_success _ w
             (logged (c_codes_get_long_array (address handle) key size)
                     (World s (next_id w) (calls w) (warnings w))) (written, size_p)).
  - reflexivity.
  - unfold lib_codes_get_long_array, foreign. rewrite H. reflexivity.
Qed.

Lemma codes_get_double_array_run (handle : cdata) (key : bytes) (size : nat) (w : world St)
    (written : list double) (size_p : nat) (s : St) :
  n_codes_get_double_array lib (address handle) key size (native w)
    = ((GRIB_SUCCESS lib, (written, size_p)), s) ->
  codes_get_double_array lib handle key size w =
    (Ok (buffer size (S754_zero false) written),
     logged (c_codes_get_double_array (address handle) key size)
            (World s (next_id w) (calls w) (warnings w))).
Proof.
  intros H. unfold codes_get_double_array, bind.
  rewrite (check_return_success _ w
             (logged (c_codes_get_double_array (address handle) key size)
                     (World s (next_id w) (calls w) (warnings w))) (written, size_p)).
  - reflexivity.
  - unfold lib_codes_get_double_array, foreign. rewrite H. reflexivity.
Qed.

Lemma codes_get_bytes_array_run (handle : cdata) (key : bytes) (size : nat) (w : world St)
    (written : list Z) (size_p : nat) (s : St) :
  n_codes_get_bytes lib (address handle) key size (native w)
    = ((GRIB_SUCCESS lib, (written, size_p)), s) ->
  codes_get_bytes_array lib handle key size w =
    (Ok (buffer size 0 written),
     logged (c_codes_get_bytes (address handle) key size)
            (World s (next_id w) (calls w) (warnings w))).
Proof.
  intros H. unfold codes_get_bytes_array, bind.
  rewrite (check_return_success _ w
             (logged (c_codes_get_bytes (address handle) key size)
                     (World s (next_id w) (calls w) (warnings w))) (written, size_p)).
  - reflexivity.
  - unfold lib_codes_get_bytes, foreign. rewrite H. reflexivity.
Qed.

(** The string getter returns as many items as the library leaves in
    [*size], not as many as were allocated. *)
Lemma codes_get_string_array_run (handle : cdata) (key : bytes) (size : nat)
    (length : option nat) (len : nat) (w w1 : world St)
    (written : list bytes) (size_p : nat) (s : St) :
  match length with
  | None => codes_get_length lib handle key
  | Some n => ret n
  end w = (Ok len, w1) ->
  n_codes_get_string_array lib (address handle) key len size (native w1)
    = ((GRIB_SUCCESS lib, (written, size_p)), s) ->
  (size_p <= size)%nat ->
  exists l,
    codes_get_string_array lib handle key size length w =
      (Ok l, logged (c_codes_get_string_array (address handle) key len size)
                    (World s (next_id w1) (calls w1) (warnings w1))) /\
    List.length l = size_p.
Proof.
  intros Hlen H Hle. unfold codes_get_string_array.
  unfold bind at 1. rewrite Hlen. unfold bind.
  rewrite (check_return_success _ w1
             (logged (c_codes_get_string_array (address handle) key len size)
                     (World s (next_id w1) (calls w1) (warnings w1))) (written, size_p)).
  - apply Nat.leb_le in Hle as Hb. rewrite Hb. eexists. split; [reflexivity|].
    rewrite length_map, length_firstn, buffer_length. lia.
  - unfold lib_codes_get_string_array, foreign. rewrite H. reflexivity.
Qed.

Lemma bind_ret_l {A B : Type} (a : A) (k : A -> M St B) : bind (ret a) k = k a.
Proof. reflexivity. Qed.

Lemma NoDup_4 {A : Type} (a b c d : A) :
  NoDup [a; b; c; d] -> a <> b /\ a <> c /\ a <> d /\ b <> c /\ b <> d /\ c <> d.
Proof.
  intros H. inversion_clear H as [|? ? Ha H1]. inversion_clear H1 as [|? ? Hb H2].
  inversion_clear H2 as [|? ? Hc _]. cbn in Ha, Hb, Hc.
  repeat split; intros ->; tauto.
Qed.

(** C5 (as amended): called with no size, [codes_get_array] asks
    [codes_get_size] and goes on exactly as if that count had been passed
    as [size].  For the long, double and bytes types the list it returns
    has exactly that many items.  For the string type the list has as many
    items as the native call leaves in [*size] (at most the count), so
    exactly that many when the library leaves it unchanged. *)
Theorem codes_get_array_size_of :
  forall (handle : cdata) (key : bytes) (key_type : option Z) (length : option nat)
         (w w0 w1 : world St) (kt : Z) (n : nat),
    match key_type with
    | None => codes_get_native_type lib handle key
    | Some t => ret t
    end w = (Ok kt, w0) ->
    codes_get_size lib handle key w0 = (Ok n, w1) ->
    NoDup [CODES_TYPE_LONG lib; CODES_TYPE_DOUBLE lib;
           CODES_TYPE_STRING lib; CODES_TYPE_BYTES lib] ->
    codes_get_array lib handle key key_type None length w
      = codes_get_array lib handle key (Some kt) (Some n) length w1 /\
    (kt = CODES_TYPE_LONG lib ->
     forall written size_p s,
       n_codes_get_long_array lib (address handle) key n (native w1)
         = ((GRIB_SUCCESS lib, (written, size_p)), s) ->
       exists l, fst (codes_get_array lib handle key key_type None length w)
                   = Ok (PyList (map PyInt l)) /\ List.length l = n) /\
    (kt = CODES_TYPE_DOUBLE lib ->
     forall written size_p s,
       n_codes_get_double_array lib (address handle) key n (native w1)
         = ((GRIB_SUCCESS lib, (written, size_p)), s) ->
       exists l, fst (codes_get_array lib handle key key_type None length w)
                   = Ok (PyList (map PyFloat l)) /\ List.length l = n) /\
    (kt = CODES_TYPE_BYTES lib ->
     forall written size_p s,
       n_codes_get_bytes lib (address handle) key n (native w1)
         = ((GRIB_SUCCESS lib, (written, size_p)), s) ->
       exists l, fst (codes_get_array lib handle key key_type None length w)
                   = Ok (PyList (map PyInt l)) /\ List.length l = n) /\
    (kt = CODES_TYPE_STRING lib ->
     forall len w2 written size_p s,
       match length with
       | None => codes_get_length lib handle key
       | Some m => ret m
       end w1 = (Ok len, w2) ->
       n_codes_get_string_array lib (address handle) key len n (native w2)
         = ((GRIB_SUCCESS lib, (written, size_p)), s) ->
       (size_p <= n)%nat ->
       exists l, fst (codes_get_array lib handle key key_type None length w)
                   = Ok (PyList (map PyBytes l)) /\ List.length l = size_p).
Proof.
  intros handle key key_type length w w0 w1 kt n Hkt Hsize Hdistinct.
  apply NoDup_4 in Hdistinct as (Hld & Hls & Hlb & Hds & Hdb & Hsb).
  assert (Hstep : codes_get_array lib handle key key_type None length w
                  = codes_get_array lib handle key (Some kt) (Some n) length w1).
  { unfold codes_get_array. rewrite !bind_ret_l.
    unfold bind at 1. rewrite Hkt.
    unfold bind at 1. rewrite Hsize. reflexivity. }
  split; [exact Hstep|]. rewrite Hstep. clear Hstep.
  unfold codes_get_array. rewrite !bind_ret_l.
  repeat split.
  - intros -> written size_p s H. rewrite Z.eqb_refl.
    unfold bind. rewrite (codes_get_long_array_run _ _ _ _ _ _ _ H).
    eexists. split; [reflexivity | apply buffer_length].
  - intros -> written size_p s H.
    apply not_eq_sym, Z.eqb_neq in Hld. rewrite Hld, Z.eqb_refl.
    unfold bind. rewrite (codes_get_double_array_run _ _ _ _ _ _ _ H).
    eexists. split; [reflexivity | apply buffer_length].
  - intros -> written size_p s H.
    apply not_eq_sym, Z.eqb_neq in Hlb, Hdb, Hsb. rewrite Hlb, Hdb, Hsb, Z.eqb_refl.
    unfold bind. rewrite (codes_get_bytes_array_run _ _ _ _ _ _ _ H).
    eexists. split; [reflexivity | apply buffer_length].
  - intros -> len w2 written size_p s Hlen H Hle.
    apply not_eq_sym, Z.eqb_neq in Hls, Hds. rewrite Hls, Hds, Z.eqb_refl.
    destruct (codes_get_string_array_run _ _ _ _ _ _ _ _ _ _ Hlen H Hle) as [l [Hl Hn]].
    unfold bind at 1. rewrite Hl. exists l. split; [reflexivity | exact Hn].
Qed.

(** ** Keys of a type the layer does not read *)

(** C8 (as amended): for a key type other than long, double and string,
    [codes_get] logs a warning and returns [None].  [codes_get_array] does
    the same for a key type that is not bytes either, once it has its size:
    when no size is passed it first asks [codes_get_size], and a failure of
    that query is raised before the key type is looked at. *)
Theorem unknown_key_type_warns :
  forall (handle : cdata) (key : bytes) (key_type : option Z) (length : option nat)
         (w w0 : world St) (kt : Z),
    match key_type with
    | None => codes_get_native_type lib handle key
    | Some t => ret t
    end w = (Ok kt, w0) ->
    kt <> CODES_TYPE_LONG lib -> kt <> CODES_TYPE_DOUBLE lib ->
    kt <> CODES_TYPE_STRING lib ->
    codes_get lib handle key key_type length w
      = (Ok PyNone, warned (unknown_key_type kt) w0) /\
    (kt <> CODES_TYPE_BYTES lib ->
     forall size : option nat,
       (forall n w1,
          match size with
          | None => codes_get_size lib handle key
          | Some m => ret m
          end w0 = (Ok n, w1) ->
          codes_get_array lib handle key key_type size length w
            = (Ok PyNone, warned (unknown_key_type kt) w1)) /\
       (forall e w1,
          match size with
          | None => codes_get_size lib handle key
          | Some m => ret m
          end w0 = (Raise e, w1) ->
          codes_get_array lib handle key key_type size length w = (Raise e, w1))).
Proof.
  intros handle key key_type length w w0 kt Hkt Hl Hd Hs.
  apply Z.eqb_neq in Hl, Hd, Hs. split.
  - unfold codes_get. unfold bind at 1. rewrite Hkt, Hl, Hd, Hs. reflexivity.
  - intros Hb size. apply Z.eqb_neq in Hb. split.
    + intros n w1 Hsize. unfold codes_get_array.
      unfold bind at 1. rewrite Hkt. unfold bind at 1. rewrite Hsize.
      rewrite Hl, Hd, Hs, Hb. reflexivity.
    + intros e w1 Hsize. unfold codes_get_array.
      unfold bind at 1. rewrite Hkt. unfold bind at 1. rewrite Hsize. reflexivity.
Qed.

(** ** Handles from samples *)

(** Off Windows the work-around does nothing. *)
Lemma portable_handle_new_from_samples_posix (samplename : bytes) (product_kind : Z)
    (w : world St) :
  is_windows py = false ->
  portable_handle_new_from_samples lib py samplename product_kind w = (Ok ffi_NULL, w).
Proof.
  intros H. unfold portable_handle_new_from_samples. rewrite H. reflexivity.
Qed.

(** C9: when the work-around yields no handle, a product kind other than
    GRIB and BUFR raises [NotImplementedError]; for GRIB and BUFR a null
    handle from the native sample call raises [ValueError] and any other
    handle is returned.  A handle the work-around found is returned as it
    is. *)
Theorem codes_new_from_samples_outcomes :
  forall (samplename : bytes) (product_kind : Z) (w w0 : world St) (found : cdata),
    portable_handle_new_from_samples lib py samplename product_kind w = (Ok found, w0) ->
    (address found <> 0 ->
     codes_new_from_samples lib py samplename product_kind w = (Ok found, w0)) /\
    (address found = 0 ->
     product_kind <> CODES_PRODUCT_GRIB -> product_kind <> CODES_PRODUCT_BUFR ->
     codes_new_from_samples lib py samplename product_kind w
       = (Raise NotImplementedError, w0)) /\
    (address found = 0 -> product_kind = CODES_PRODUCT_GRIB ->
     forall h s,
       n_codes_grib_handle_new_from_samples lib 0 samplename (native w0) = (h, s) ->
       codes_new_from_samples lib py samplename product_kind w
         = (if h =? 0 then Raise ValueError else Ok (CData (S (next_id w0)) h),
            World s (S (next_id w0))
                  (calls w0 ++ [c_codes_grib_handle_new_from_samples 0 samplename])
                  (warnings w0))) /\
    (address found = 0 -> product_kind = CODES_PRODUCT_BUFR ->
     forall h s,
       n_codes_bufr_handle_new_from_samples lib 0 samplename (native w0) = (h, s) ->
       codes_new_from_samples lib py samplename product_kind w
         = (if h =? 0 then Raise ValueError else Ok (CData (S (next_id w0)) h),
            World s (S (next_id w0))
                  (calls w0 ++ [c_codes_bufr_handle_new_from_samples 0 samplename])
                  (warnings w0))).
Proof.
  intros samplename kind w w0 found Hport.
  assert (Hstep : codes_new_from_samples lib py samplename kind w =
            (if negb (address found =? 0) then ret found
             else
               handle <- (if kind =? CODES_PRODUCT_GRIB then
                            lib_codes_grib_handle_new_from_samples lib ffi_NULL samplename
                          else if kind =? CODES_PRODUCT_BUFR then
                            lib_codes_bufr_handle_new_from_samples lib ffi_NULL samplename
                          else raise NotImplementedError) ;;
               if cdata_eq handle ffi_NULL then raise ValueError else ret handle) w0).
  { unfold codes_new_from_samples. unfold bind at 1. rewrite Hport. reflexivity. }
  rewrite Hstep. clear Hstep Hport.
  repeat split.
  - intros Hnn. apply Z.eqb_neq in Hnn. rewrite Hnn. reflexivity.
  - intros Hnull Hg Hb. rewrite Hnull. apply Z.eqb_neq in Hg, Hb.
    cbn [Z.eqb negb]. rewrite Hg, Hb. reflexivity.
  - intros Hnull -> h s Hn. rewrite Hnull. cbn [Z.eqb negb].
    change (CODES_PRODUCT_GRIB =? CODES_PRODUCT_GRIB) with true. cbv iota.
    unfold lib_codes_grib_handle_new_from_samples, bind, foreign, new_cdata, cdata_eq.
    change (address ffi_NULL) with 0. rewrite Hn. cbn [address].
    destruct (h =? 0); reflexivity.
  - intros Hnull -> h s Hn. rewrite Hnull. cbn [Z.eqb negb].
    change (CODES_PRODUCT_BUFR =? CODES_PRODUCT_GRIB) with false.
    change (CODES_PRODUCT_BUFR =? CODES_PRODUCT_BUFR) with true. cbv iota.
    unfold lib_codes_bufr_handle_new_from_samples, bind, foreign, new_cdata, cdata_eq.
    change (address ffi_NULL) with 0. rewrite Hn. cbn [address].
    destruct (h =? 0); reflexivity.
Qed.

(** ** The API version *)

Lemma has_char_app (c : ascii) (a b : string) :
  has_char c (a ++ b)%string = has_char c a || has_char c b.
Proof.
  induction a as [|x a IH]; cbn; [reflexivity|].
  rewrite IH, orb_assoc. reflexivity.
Qed.

Lemma split_on_no_sep (sep : ascii) (a : string) :
  has_char sep a = false -> split_on sep a = [a].
Proof.
  induction a as [|x a IH]; cbn; [reflexivity|].
  intros H. apply orb_false_elim in H as [Hx Ha].
  rewrite Hx, (IH Ha). reflexivity.
Qed.

Lemma split_on_app (sep : ascii) (a b : string) :
  has_char sep a = false ->
  split_on sep (a ++ String sep b)%string = a :: split_on sep b.
Proof.
  induction a as [|x a IH]; cbn.
  - intros _. rewrite Ascii.eqb_refl. reflexivity.
  - intros H. apply orb_false_elim in H as [Hx Ha].
    rewrite Hx, (IH Ha). reflexivity.
Qed.

Lemma period_free_uint (d : Decimal.uint) :
  has_char "." (NilEmpty.string_of_uint d) = false.
Proof. induction d; cbn; assumption || reflexivity. Qed.

(** A decimal numeral holds no period. *)
Lemma str_of_int_period_free (n : Z) : has_char "." (str_of_int n) = false.
Proof.
  unfold str_of_int, NilZero.string_of_int, NilZero.string_of_uint.
  destruct (Z.to_int n) as [d|d]; destruct d; cbn;
    reflexivity || apply period_free_uint.
Qed.

(** C10: for the version number [v] the library reports (non-negative or
    not: [/] and [mod] round down as [//] and [%] do),
    [codes_get_api_version] returns the decimal numerals of [v / 10000],
    [(v / 100) mod 100] and [v mod 100], in that order, separated by two
    periods (so that splitting the string at the periods gives them back). *)
Theorem codes_get_api_version_components :
  forall (w : world St) (v : Z) (s : St),
    n_codes_get_api_version lib (native w) = (v, s) ->
    exists text,
      codes_get_api_version lib w
        = (Ok text, World s (next_id w) (calls w ++ [c_codes_get_api_version]) (warnings w)) /\
      text = (str_of_int (v / 10000) ++ "." ++ str_of_int ((v / 100) mod 100) ++ "."
                ++ str_of_int (v mod 100))%string /\
      split_on "." text
        = [str_of_int (v / 10000); str_of_int ((v / 100) mod 100); str_of_int (v mod 100)].
Proof.
  intros w v s Hv.
  unfold codes_get_api_version, bind, foreign. rewrite Hv.
  replace (v / 100 / 100) with (v / 10000) by (rewrite Z.div_div; [reflexivity | lia | lia]).
  eexists. split; [reflexivity|]. split; [reflexivity|].
  change ("." ++ ?x)%string with (String "." x).
  rewrite split_on_app by apply str_of_int_period_free.
  change (String "." EmptyString ++ ?x)%string with (String "." x).
  rewrite split_on_app by apply str_of_int_period_free.
  rewrite split_on_no_sep by apply str_of_int_period_free.
  reflexivity.
Qed.

End Properties.

(** * Further properties of the layer *)

Section FurtherProperties.

Context {St : Type}.
Variable lib : eccodes St.
Variable py : host.

Local Open Scope list_scope.

(** ** Handles are never null *)

Lemma cdata_eq_NULL_false (h : cdata) :
  cdata_eq h ffi_NULL = false -> address h <> 0.
Proof. unfold cdata_eq. change (address ffi_NULL) with 0. apply Z.eqb_neq. Qed.

Lemma new_from_file_ok_not_null (fileobj product_kind : Z) (context : option cdata)
    (w w' : world St) (h : cdata) :
  codes_handle_new_from_file lib fileobj product_kind context w = (Ok h, w') ->
  address h <> 0.
Proof.
  unfold codes_handle_new_from_file, try_except. unfold bind at 1.
  destruct (check_last lib _ w) as [[retval|e] w1].
  - destruct (cdata_eq retval ffi_NULL) eqn:E; unfold raise, ret.
    + discriminate.
    + intros [= <- _]. apply cdata_eq_NULL_false. exact E.
  - destruct e; unfold raise; try discriminate.
    destruct (code =? GRIB_END_OF_FILE lib); discriminate.
Qed.

(** X1: whatever the library answers, a handle that
    [codes_handle_new_from_file] returns is not the null pointer: a null
    result never reaches the caller as a value. *)
Theorem codes_handle_new_from_file_never_null :
  forall (fileobj product_kind : Z) (context : option cdata) (w w' : world St) (h : cdata),
    codes_handle_new_from_file lib fileobj product_kind context w = (Ok h, w') ->
    address h <> 0.
Proof. exact new_from_file_ok_not_null. Qed.

(** X17: [codes_handle_new_from_file] never lets the end-of-file status
    out as an [EcCodesError]: an [EcCodesError] it raises carries a code
    other than [GRIB_END_OF_FILE]. *)
Theorem codes_handle_new_from_file_hides_end_of_file :
  forall (fileobj product_kind : Z) (context : option cdata) (w w' : world St)
         (code : Z) (eccode_message message : string),
    codes_handle_new_from_file lib fileobj product_kind context w
      = (Raise (EcCodesError code eccode_message message), w') ->
    code <> GRIB_END_OF_FILE lib.
Proof.
  intros fileobj kind context w w' code em m.
  unfold codes_handle_new_from_file, try_except. unfold bind at 1.
  destruct (check_last lib _ w) as [[retval|e] w1].
  - destruct (cdata_eq retval ffi_NULL); unfold raise, ret; discriminate.
  - destruct e; unfold raise; try discriminate.
    destruct (code0 =? GRIB_END_OF_FILE lib) eqn:E; [discriminate|].
    intros [= <- _ _ _]. apply Z.eqb_neq. exact E.
Qed.

(** A product kind outside the range of [enum ProductKind] is refused by
    the argument conversion: nothing is called. *)
Lemma codes_handle_new_from_file_product_kind_range (fileobj product_kind : Z)
    (context : option cdata) (w : world St) :
  product_kind < 0 \/ 2 ^ 32 <= product_kind ->
  codes_handle_new_from_file lib fileobj product_kind context w = (Raise OverflowError, w).
Proof.
  intros H.
  unfold codes_handle_new_from_file, try_except, check_last,
    lib_codes_handle_new_from_file, bind, lift.
  cbn [convert_unsigned].
  replace ((0 <=? product_kind) && (product_kind <? 2 ^ 32)) with false; [reflexivity|].
  symmetry. apply andb_false_iff.
  destruct H; [left; apply Z.leb_gt | right; apply Z.ltb_ge]; assumption.
Qed.

(** X2: the work-around for Windows lets no exception of [open] or of
    [codes_handle_new_from_file] escape.  Off Windows it returns
    [ffi.NULL] and touches nothing; the only exception it can raise is the
    [RuntimeError] of [ffi.string] on a null samples path, on Windows; and
    what it returns is [ffi.NULL] itself or a handle that is not null. *)
Theorem portable_handle_new_from_samples_swallows :
  forall (samplename : bytes) (product_kind : Z) (w : world St),
    (is_windows py = false ->
     portable_handle_new_from_samples lib py samplename product_kind w = (Ok ffi_NULL, w)) /\
    (forall e w',
       portable_handle_new_from_samples lib py samplename product_kind w = (Raise e, w') ->
       e = RuntimeError /\ is_windows py = true /\
       fst (n_codes_samples_path lib 0 (native w)) = None) /\
    (forall h w',
       portable_handle_new_from_samples lib py samplename product_kind w = (Ok h, w') ->
       h = ffi_NULL \/ address h <> 0).
Proof.
  intros samplename kind w. unfold portable_handle_new_from_samples.
  destruct (is_windows py).
  2:{ repeat split; try discriminate.
      intros h w' [= <- _]. left. reflexivity. }
  split; [discriminate|].
  unfold samples_path, bind, foreign, try_except. change (address ffi_NULL) with 0.
  destruct (n_codes_samples_path lib 0 (native w)) as [[folder|] s]; cbn -[codes_handle_new_from_file].
  - destruct (open_file py (os_path_join py folder (samplename ++ ".tmpl")%string)) as [file|].
    + destruct (codes_handle_new_from_file lib file kind None _) as [[h0|e0] w0] eqn:E.
      * split; [discriminate|]. intros h w' [= <- _]. right.
        exact (new_from_file_ok_not_null _ _ _ _ _ _ E).
      * split; [discriminate|]. intros h w' [= <- _]. left. reflexivity.
    + split; [discriminate|]. intros h w' [= <- _]. left. reflexivity.
  - split; [|discriminate]. intros e w' [= <- _]. repeat split.
Qed.

(** X3: a handle that [codes_new_from_samples] returns is never the null
    pointer, on any platform and for any product kind. *)
Theorem codes_new_from_samples_never_null :
  forall (samplename : bytes) (product_kind : Z) (w w' : world St) (h : cdata),
    codes_new_from_samples lib py samplename product_kind w = (Ok h, w') ->
    address h <> 0.
Proof.
  intros samplename kind w w' h. unfold codes_new_from_samples. unfold bind at 1.
  destruct (portable_handle_new_from_samples lib py samplename kind w) as [[h0|e0] w0];
    [|discriminate].
  destruct (cdata_eq h0 ffi_NULL) eqn:E0; cbn [negb].
  - unfold bind.
    destruct ((if kind =? CODES_PRODUCT_GRIB
               then lib_codes_grib_handle_new_from_samples lib ffi_NULL samplename
               else if kind =? CODES_PRODUCT_BUFR
                    then lib_codes_bufr_handle_new_from_samples lib ffi_NULL samplename
                    else raise NotImplementedError) w0) as [[h1|e1] w1]; [|discriminate].
    destruct (cdata_eq h1 ffi_NULL) eqn:E1; unfold raise, ret; [discriminate|].
    intros [= <- _]. apply cdata_eq_NULL_false. exact E1.
  - unfold ret. intros [= <- _]. apply cdata_eq_NULL_false. exact E0.
Qed.

(** ** What the getters return *)

Lemma buffer_nth {A : Type} (size : nat) (zero : A) (written : list A) (i : nat) :
  (i < size)%nat -> nth i (buffer size zero written) zero = nth i written zero.
Proof.
  intros Hi. unfold buffer. rewrite nth_firstn.
  apply Nat.ltb_lt in Hi as Hb. rewrite Hb.
  destruct (Nat.lt_ge_cases i (length written)) as [Hlt|Hge].
  - apply app_nth1. exact Hlt.
  - rewrite app_nth2 by exact Hge. rewrite nth_repeat.
    symmetry. apply nth_overflow. exact Hge.
Qed.

Lemma array_getter_length {A : Type} (size : nat) (zero : A) (written : list A) :
  length (buffer size zero written) = size.
Proof. unfold buffer. rewrite length_firstn, length_app, repeat_length. lia. Qed.

(** X4: with a size given and the native call succeeding, the long, double
    and bytes array getters return exactly [size] items, whatever count the
    library leaves in [*size]: the items the library stored, in order, and
    zeros in the cells it did not store. *)
Theorem array_getters_return_size_items :
  forall (handle : cdata) (key : bytes) (size : nat) (w : world St),
    (forall written size_p s,
       n_codes_get_long_array lib (address handle) key size (native w)
         = ((GRIB_SUCCESS lib, (written, size_p)), s) ->
       exists l w',
         codes_get_long_array lib handle key size w = (Ok l, w') /\
         length l = size /\
         forall i, (i < size)%nat -> nth i l 0 = nth i written 0) /\
    (forall written size_p s,
       n_codes_get_double_array lib (address handle) key size (native w)
         = ((GRIB_SUCCESS lib, (written, size_p)), s) ->
       exists l w',
         codes_get_double_array lib handle key size w = (Ok l, w') /\
         length l = size /\
         forall i, (i < size)%nat ->
                   nth i l (S754_zero false) = nth i written (S754_zero false)) /\
    (forall written size_p s,
       n_codes_get_bytes lib (address handle) key size (native w)
         = ((GRIB_SUCCESS lib, (written, size_p)), s) ->
       exists l w',
         codes_get_bytes_array lib handle key size w = (Ok l, w') /\
         length l = size /\
         forall i, (i < size)%nat -> nth i l 0 = nth i written 0).
Proof.
  intros handle key size w. repeat split.
  - intros written size_p s H.
    unfold codes_get_long_array, check_return, lib_codes_get_long_array, bind, foreign.
    rewrite H, Z.eqb_refl. cbn. do 2 eexists. split; [reflexivity|].
    split; [apply array_getter_length | intros i Hi; apply buffer_nth; exact Hi].
  - intros written size_p s H.
    unfold codes_get_double_array, check_return, lib_codes_get_double_array, bind, foreign.
    rewrite H, Z.eqb_refl. cbn. do 2 eexists. split; [reflexivity|].
    split; [apply array_getter_length | intros i Hi; apply buffer_nth; exact Hi].
  - intros written size_p s H.
    unfold codes_get_bytes_array, check_return, lib_codes_get_bytes, bind, foreign.
    rewrite H, Z.eqb_refl. cbn. do 2 eexists. split; [reflexivity|].
    split; [apply array_getter_length | intros i Hi; apply buffer_nth; exact Hi].
Qed.

(** *** Strings *)

Lemma ffi_string_no_NUL (buf : bytes) (maxlen : nat) :
  has_char zero (ffi_string buf maxlen) = false.
Proof.
  revert maxlen. induction buf as [|c r IH]; intros [|n]; try reflexivity. cbn.
  destruct (N_of_ascii c =? 0)%N eqn:E; [reflexivity|]. cbn.
  rewrite IH, orb_false_r. apply Ascii.eqb_neq. intros ->.
  cbn in E. discriminate.
Qed.

Lemma ffi_string_length (buf : bytes) (maxlen : nat) :
  (String.length (ffi_string buf maxlen) <= Nat.min maxlen (String.length buf))%nat.
Proof.
  revert maxlen. induction buf as [|c r IH]; intros [|n]; cbn; try lia.
  destruct (N_of_ascii c =? 0)%N; cbn; [lia|]. specialize (IH n). lia.
Qed.

Lemma ffi_string_zeros (k maxlen : nat) :
  ffi_string (string_of_list_ascii (repeat zero k)) maxlen = EmptyString.
Proof. destruct k, maxlen; reflexivity. Qed.

Lemma ffi_string_prefix (written : bytes) :
  forall k maxlen,
    exists rest,
      written = (ffi_string (written ++ string_of_list_ascii (repeat zero k)) maxlen
                   ++ rest)%string.
Proof.
  induction written as [|c r IH]; intros k maxlen.
  - exists EmptyString. cbn [append]. rewrite ffi_string_zeros. reflexivity.
  - destruct maxlen as [|n]; [exists (String c r); reflexivity|].
    cbn [append ffi_string]. destruct (N_of_ascii c =? 0)%N.
    + exists (String c r). reflexivity.
    + destruct (IH k n) as [rest Hrest]. exists rest. cbn. f_equal. exact Hrest.
Qed.

(** X5: what [codes_get_string] returns holds no NUL byte and is no longer
    than the length the library left in [*length]; when that length is
    within the buffer, it is the beginning of what the library stored. *)
Theorem codes_get_string_bounds :
  forall (handle : cdata) (key : bytes) (length : option nat) (len : nat)
         (w w1 : world St) (written : bytes) (length_p : nat) (s : St),
    match length with
    | None => codes_get_length lib handle key
    | Some n => ret n
    end w = (Ok len, w1) ->
    n_codes_get_string lib (address handle) key len (native w1)
      = ((GRIB_SUCCESS lib, (written, length_p)), s) ->
    exists result w',
      codes_get_string lib handle key length w = (Ok result, w') /\
      has_char zero result = false /\
      (String.length result <= length_p)%nat /\
      ((length_p <= len)%nat -> exists rest, written = (result ++ rest)%string).
Proof.
  intros handle key length len w w1 written length_p s Hlen H.
  unfold codes_get_string. unfold bind at 1. rewrite Hlen.
  unfold check_return, lib_codes_get_string, bind, foreign.
  rewrite H, Z.eqb_refl. cbn. do 2 eexists. split; [reflexivity|].
  split; [apply ffi_string_no_NUL|]. split.
  - pose proof (ffi_string_length (char_memory len written) length_p) as L. lia.
  - intros _. apply ffi_string_prefix.
Qed.

Lemma N_of_ascii_zero (c : ascii) : N_of_ascii c = 0%N -> c = zero.
Proof.
  intros H. rewrite <- (ascii_N_embedding c), H. reflexivity.
Qed.

Lemma ffi_string_cut (v : bytes) :
  forall maxlen, (String.length v <= maxlen)%nat -> cut_at_NUL v (ffi_string v maxlen).
Proof.
  unfold cut_at_NUL. induction v as [|c r IH]; intros maxlen Hle.
  - split; [destruct maxlen; reflexivity|].
    exists EmptyString. split; [destruct maxlen; reflexivity | left; reflexivity].
  - destruct maxlen as [|n]; [cbn in Hle; lia|].
    cbn [ffi_string]. destruct (N_of_ascii c =? 0)%N eqn:E.
    + split; [reflexivity|]. exists (String c r). split; [reflexivity|].
      right. exists r. apply N.eqb_eq, N_of_ascii_zero in E. rewrite E. reflexivity.
    + destruct (IH n) as [Hfree [rest [Hrest Hend]]]; [cbn in Hle; lia|].
      split.
      * cbn. rewrite Hfree, orb_false_r. apply Ascii.eqb_neq. intros ->.
        cbn in E. discriminate.
      * exists rest. split; [cbn; f_equal; exact Hrest | exact Hend].
Qed.

(** The items read from a [char*[size]] array after the library has stored
    [written] in it. *)
Lemma string_items_cut (size size_p : nat) (written : list bytes) (i : nat) :
  (i < size_p)%nat -> (size_p <= size)%nat ->
  cut_at_NUL (nth i written EmptyString)
    (nth i (map (fun v => ffi_string v (String.length v))
              (firstn size_p (buffer size EmptyString written))) EmptyString).
Proof.
  intros Hi Hle.
  change (nth i (map (fun v => ffi_string v (String.length v))
                   (firstn size_p (buffer size EmptyString written))) EmptyString)
    with (nth i (map (fun v => ffi_string v (String.length v))
                   (firstn size_p (buffer size EmptyString written)))
            ((fun v => ffi_string v (String.length v)) EmptyString)).
  rewrite map_nth, nth_firstn.
  apply Nat.ltb_lt in Hi as Hb. rewrite Hb.
  rewrite buffer_nth by lia.
  apply ffi_string_cut. lia.
Qed.

(** X6: [codes_get_string_array] returns as many items as the library
    leaves in [*size]; item [i] is the string the library stored in cell
    [i], cut at its first NUL byte (the empty string for a cell it did not
    store).  When the library leaves more than the [size] cells allocated,
    reading the cell past the end raises [IndexError]. *)
Theorem codes_get_string_array_items :
  forall (handle : cdata) (key : bytes) (size : nat) (length : option nat) (len : nat)
         (w w1 : world St) (written : list bytes) (size_p : nat) (s : St),
    match length with
    | None => codes_get_length lib handle key
    | Some n => ret n
    end w = (Ok len, w1) ->
    n_codes_get_string_array lib (address handle) key len size (native w1)
      = ((GRIB_SUCCESS lib, (written, size_p)), s) ->
    ((size_p <= size)%nat ->
     exists l w',
       codes_get_string_array lib handle key size length w = (Ok l, w') /\
       List.length l = size_p /\
       forall i, (i < size_p)%nat ->
                 cut_at_NUL (nth i written EmptyString) (nth i l EmptyString)) /\
    ((size < size_p)%nat ->
     fst (codes_get_string_array lib handle key size length w) = Raise IndexError).
Proof.
  intros handle key size length len w w1 written size_p s Hlen H.
  unfold codes_get_string_array. unfold bind at 1 3. rewrite Hlen.
  unfold check_return, lib_codes_get_string_array, bind, foreign.
  rewrite H, Z.eqb_refl. cbn. split.
  - intros Hle. apply Nat.leb_le in Hle as Hb. rewrite Hb.
    do 2 eexists. split; [reflexivity|]. split.
    + rewrite length_map, length_firstn, array_getter_length. lia.
    + intros i Hi. apply string_items_cut; assumption.
  - intros Hgt. apply Nat.leb_gt in Hgt. rewrite Hgt. reflexivity.
Qed.

(** ** A key the message does not have *)

(** X7: when the native type of the key cannot be found (the type query
    returns a failing status), [codes_get] and [codes_get_array] called
    without a key type raise the [EcCodesError] of that status; they call
    no getter, ask for no size, and log no warning. *)
Theorem getters_raise_on_unknown_key :
  forall (handle : cdata) (key : bytes) (size length : option nat) (w : world St)
         (code t : Z) (s : St),
    n_codes_get_native_type lib (address handle) key (native w) = ((code, t), s) ->
    code <> GRIB_SUCCESS lib ->
    is_ascii (n_grib_get_error_message lib code) = true ->
    let failure :=
      (@Raise pyval
         (EcCodesError code (n_grib_get_error_message lib code)
            (default_message (n_grib_get_error_message lib code) code)),
       World s (next_id w)
             (calls w ++ [c_codes_get_native_type (address handle) key;
                          c_grib_get_error_message code])
             (warnings w)) in
    codes_get lib handle key None length w = failure /\
    codes_get_array lib handle key None size length w = failure.
Proof.
  intros handle key size length w code t s H Hc Ha failure.
  assert (Hq : codes_get_native_type lib handle key w =
               (Raise (EcCodesError code (n_grib_get_error_message lib code)
                         (default_message (n_grib_get_error_message lib code) code)),
                World s (next_id w)
                      (calls w ++ [c_codes_get_native_type (address handle) key;
                                   c_grib_get_error_message code])
                      (warnings w))).
  { unfold codes_get_native_type, check_return, lib_codes_get_native_type, bind, foreign.
    rewrite H. apply Z.eqb_neq in Hc. rewrite Hc. cbn -[EcCodesError_init].
    unfold EcCodesError_init, grib_get_error_message, lib_grib_get_error_message,
      bind, foreign, lift, ENC, raise, ret.
    cbn. rewrite (decode_ascii_ok _ Ha). cbn. rewrite <- app_assoc. reflexivity. }
  split.
  - unfold codes_get. unfold bind at 1. rewrite Hq. reflexivity.
  - unfold codes_get_array. unfold bind at 1. rewrite Hq. reflexivity.
Qed.

(** ** The version string, from its parts *)

(** X8: for a version number built as [major * 10000 + minor * 100 + patch]
    with [minor] and [patch] below 100, [codes_get_api_version] gives back
    the three parts: the string is [major.minor.patch]. *)
Theorem codes_get_api_version_round_trip :
  forall (w : world St) (major minor patch : Z) (s : St),
    n_codes_get_api_version lib (native w) = (major * 10000 + minor * 100 + patch, s) ->
    0 <= minor < 100 -> 0 <= patch < 100 ->
    fst (codes_get_api_version lib w)
      = Ok (str_of_int major ++ "." ++ str_of_int minor ++ "." ++ str_of_int patch)%string.
Proof.
  intros w major minor patch s H Hminor Hpatch.
  unfold codes_get_api_version, bind, foreign. rewrite H. cbn [fst ret].
  set (v := major * 10000 + minor * 100 + patch).
  assert (Hp : v mod 100 = patch).
  { unfold v. replace (major * 10000 + minor * 100 + patch)
      with (patch + (major * 100 + minor) * 100) by ring.
    rewrite Z.mod_add by lia. apply Z.mod_small. lia. }
  assert (Hd : v / 100 = major * 100 + minor).
  { unfold v. replace (major * 10000 + minor * 100 + patch)
      with (patch + (major * 100 + minor) * 100) by ring.
    rewrite Z.div_add by lia. rewrite Z.div_small by lia. lia. }
  assert (Hm : (v / 100) mod 100 = minor).
  { rewrite Hd. replace (major * 100 + minor) with (minor + major * 100) by ring.
    rewrite Z.mod_add by lia. apply Z.mod_small. lia. }
  assert (HM : v / 100 / 100 = major).
  { rewrite Hd. replace (major * 100 + minor) with (minor + major * 100) by ring.
    rewrite Z.div_add by lia. rewrite Z.div_small by lia. lia. }
  rewrite Hp, Hm, HM. reflexivity.
Qed.

(** ** Arrays of one type *)

Lemma convert_array_ints (bits : Z) (zs : list Z) :
  forallb (fits bits) zs = true ->
  convert_array (convert_integer bits) (map PyInt zs) = Ok zs.
Proof.
  induction zs as [|z zs IH]; cbn; [reflexivity|].
  intros H. apply andb_prop in H as [Hz Hzs]. rewrite Hz, (IH Hzs). reflexivity.
Qed.

Lemma convert_array_ints_overflow (bits : Z) (zs : list Z) :
  forallb (fits bits) zs = false ->
  convert_array (convert_integer bits) (map PyInt zs) = Raise OverflowError.
Proof.
  induction zs as [|z zs IH]; cbn; [discriminate|].
  destruct (fits bits z); cbn; [|reflexivity].
  intros H. rewrite (IH H). reflexivity.
Qed.

Lemma convert_array_floats (ds : list double) :
  convert_array convert_double (map PyFloat ds) = Ok ds.
Proof. induction ds as [|d ds IH]; cbn; [reflexivity | rewrite IH; reflexivity]. Qed.

Lemma run_check_return_calls (func : M St (Z * unit)) (w w1 : world St) (code : Z) :
  func w = (Ok (code, tt), w1) ->
  calls (snd (check_return lib func w)) = calls w1 ++ error_report lib code.
Proof.
  intros H. unfold check_return, bind, error_report. rewrite H.
  destruct (code =? GRIB_SUCCESS lib); cbn -[EcCodesError_init].
  - rewrite app_nil_r. reflexivity.
  - unfold EcCodesError_init, grib_get_error_message, lib_grib_get_error_message,
      bind, foreign, lift, ENC, raise, ret. cbn.
    destruct (decode_ascii (n_grib_get_error_message lib code)); reflexivity.
Qed.

(** X9: a non-empty list of ints that all fit a C [long] reaches the
    native long-array setter unchanged, with its length; a non-empty list
    of floats reaches the double-array setter unchanged.  A list of ints
    one of which does not fit raises [OverflowError] and nothing is
    called. *)
Theorem codes_set_array_passes_values :
  forall (handle : cdata) (key : bytes) (w : world St),
    (forall z zs,
       forallb (fits (long_bits py)) (z :: zs) = true ->
       calls (snd (codes_set_array lib py handle key (map PyInt (z :: zs)) w)) =
         calls w ++
           c_codes_set_long_array (address handle) key (z :: zs) (length (z :: zs)) ::
           error_report lib
             (fst (n_codes_set_long_array lib (address handle) key (z :: zs)
                     (length (z :: zs)) (native w)))) /\
    (forall d ds,
       calls (snd (codes_set_array lib py handle key (map PyFloat (d :: ds)) w)) =
         calls w ++
           c_codes_set_double_array (address handle) key (d :: ds) (length (d :: ds)) ::
           error_report lib
             (fst (n_codes_set_double_array lib (address handle) key (d :: ds)
                     (length (d :: ds)) (native w)))) /\
    (forall z zs,
       forallb (fits (long_bits py)) (z :: zs) = false ->
       codes_set_array lib py handle key (map PyInt (z :: zs)) w = (Raise OverflowError, w)).
Proof.
  intros handle key w. repeat split.
  - intros z zs Hfit.
    change (codes_set_array lib py handle key (map PyInt (z :: zs)))
      with (codes_set_long_array lib py handle key (map PyInt (z :: zs))).
    unfold codes_set_long_array. unfold bind at 1. unfold lift at 1.
    rewrite (convert_array_ints _ _ Hfit). rewrite length_map.
    destruct (n_codes_set_long_array lib (address handle) key (z :: zs)
                (length (z :: zs)) (native w)) as [code s] eqn:E.
    rewrite (run_check_return_calls _ w
               (logged (c_codes_set_long_array (address handle) key (z :: zs)
                          (length (z :: zs)))
                       (World s (next_id w) (calls w) (warnings w))) code).
    + cbn. rewrite <- app_assoc. reflexivity.
    + unfold lib_codes_set_long_array, bind, foreign, ret, logged. rewrite E. reflexivity.
  - intros d ds.
    change (codes_set_array lib py handle key (map PyFloat (d :: ds)))
      with (codes_set_double_array lib handle key (map PyFloat (d :: ds))).
    unfold codes_set_double_array. unfold bind at 1. unfold lift at 1.
    rewrite convert_array_floats. rewrite length_map.
    destruct (n_codes_set_double_array lib (address handle) key (d :: ds)
                (length (d :: ds)) (native w)) as [code s] eqn:E.
    rewrite (run_check_return_calls _ w
               (logged (c_codes_set_double_array (address handle) key (d :: ds)
                          (length (d :: ds)))
                       (World s (next_id w) (calls w) (warnings w))) code).
    + cbn. rewrite <- app_assoc. reflexivity.
    + unfold lib_codes_set_double_array, bind, foreign, ret, logged. rewrite E. reflexivity.
  - intros z zs Hfit.
    change (codes_set_array lib py handle key (map PyInt (z :: zs)))
      with (codes_set_long_array lib py handle key (map PyInt (z :: zs))).
    unfold codes_set_long_array, bind, lift.
    rewrite (convert_array_ints_overflow _ _ Hfit). reflexivity.
Qed.

(** ** Messages that are not ASCII *)

Lemma decode_ascii_fails (b : bytes) :
  is_ascii b = false -> decode_ascii b = Raise UnicodeDecodeError.
Proof.
  induction b as [|c r IH]; cbn; [discriminate|].
  destruct (is_ascii_char c); cbn; [|reflexivity].
  intros H. rewrite (IH H). reflexivity.
Qed.

Lemma decode_ascii_raises (b : bytes) (e : exn) :
  decode_ascii b = Raise e -> e = UnicodeDecodeError.
Proof.
  induction b as [|c r IH]; cbn; [discriminate|].
  destruct (is_ascii_char c); [|intros [= <-]; reflexivity].
  destruct (decode_ascii r) as [t|e']; [discriminate|].
  intros [= <-]. apply IH. reflexivity.
Qed.

(** X10: the message of a status is decoded as ASCII while the error is
    being built.  When the status is not [GRIB_SUCCESS] and the library's
    message holds a byte above 127, both wrappers raise
    [UnicodeDecodeError] in place of [EcCodesError]. *)
Theorem wrappers_raise_UnicodeDecodeError :
  forall (A B : Type) (func_last : M St (A * Z)) (func_return : M St (Z * B))
         (w w1 w2 : world St) (retval : A) (stored : B) (code : Z),
    code <> GRIB_SUCCESS lib ->
    is_ascii (n_grib_get_error_message lib code) = false ->
    (func_last w = (Ok (retval, code), w1) ->
     check_last lib func_last w
       = (Raise UnicodeDecodeError, logged (c_grib_get_error_message code) w1)) /\
    (func_return w = (Ok (code, stored), w2) ->
     check_return lib func_return w
       = (Raise UnicodeDecodeError, logged (c_grib_get_error_message code) w2)).
Proof.
  intros A B fl fr w w1 w2 retval stored code Hc Ha.
  apply Z.eqb_neq in Hc. split; intros H.
  - unfold check_last, bind. rewrite H, Hc. cbn -[EcCodesError_init].
    unfold EcCodesError_init, grib_get_error_message, lib_grib_get_error_message,
      bind, foreign, lift, ENC. cbn. rewrite (decode_ascii_fails _ Ha). reflexivity.
  - unfold check_return, bind. rewrite H, Hc. cbn -[EcCodesError_init].
    unfold EcCodesError_init, grib_get_error_message, lib_grib_get_error_message,
      bind, foreign, lift, ENC. cbn. rewrite (decode_ascii_fails _ Ha). reflexivity.
Qed.

End FurtherProperties.

(** * Properties of the index, setter and message functions *)

Section MoreProperties.

Context {St : Type}.
Variable lib : eccodes St.
Variable more : eccodes_more St.
Variable py : host.

Local Open Scope list_scope.


Lemma check_last_native {T A : Type} (l : eccodes T) (func : M T (A * Z))
    (w w1 : world T) (code : Z) (retval : A) :
  func w = (Ok (retval, code), w1) ->
  native (snd (check_last l func w)) = native w1.
Proof.
  intros H. unfold check_last, bind. rewrite H.
  destruct (code =? GRIB_SUCCESS l); cbn -[EcCodesError_init]; [reflexivity|].
  unfold EcCodesError_init, grib_get_error_message, lib_grib_get_error_message,
    bind, foreign, lift, ENC, raise, ret. cbn.
  destruct (decode_ascii (n_grib_get_error_message l code)); reflexivity.
Qed.

(** ** The key list of an index *)

Lemma split_on_bytes_join (keys : list bytes) :
  keys <> [] ->
  Forall (fun key => has_char "," key = false) keys ->
  split_on "," (bytes_join "," keys) = keys.
Proof.
  induction keys as [|k rest IH]; [congruence|]. intros _ H.
  inversion_clear H as [|? ? Hk Hrest].
  destruct rest as [|k2 rest].
  - cbn. apply split_on_no_sep. exact Hk.
  - change (bytes_join "," (k :: k2 :: rest))
      with (k ++ String "," (bytes_join "," (k2 :: rest)))%string.
    rewrite (split_on_app _ _ _ Hk). f_equal. apply IH; [discriminate | exact Hrest].
Qed.

(** X11: [codes_index_new_from_file] sends the keys of the index to the
    library as one string that splits at its commas back into the keys,
    in order, provided the list is not empty and no key holds a comma.  An
    empty list is sent as the empty string. *)
Theorem codes_index_new_from_file_keys :
  forall (path : bytes) (keys : list bytes) (w : world (ext St)),
    (keys <> [] -> Forall (fun key => has_char "," key = false) keys ->
     exists keys_enc,
       split_on "," keys_enc = keys /\
       more_calls (native (snd (codes_index_new_from_file lib more path keys w)))
         = more_calls (native w) ++ [c_codes_index_new_from_file 0 path keys_enc]) /\
    (keys = [] ->
     more_calls (native (snd (codes_index_new_from_file lib more path keys w)))
       = more_calls (native w) ++ [c_codes_index_new_from_file 0 path EmptyString]).
Proof.
  intros path keys w.
  assert (Hlog : more_calls (native (snd (codes_index_new_from_file lib more path keys w)))
                 = more_calls (native w)
                     ++ [c_codes_index_new_from_file 0 path (bytes_join "," keys)]).
  { unfold codes_index_new_from_file.
    destruct (n_codes_index_new_from_file more 0 path (bytes_join "," keys)
                (base (native w))) as [[h code] s] eqn:E.
    erewrite check_last_native.
    2:{ unfold lib_codes_index_new_from_file, bind, foreign_more, new_cdata, ret.
        change (address ffi_NULL) with 0. rewrite E. reflexivity. }
    reflexivity. }
  split.
  - intros Hne Hfree. exists (bytes_join "," keys). split; [|exact Hlog].
    apply split_on_bytes_join; assumption.
  - intros ->. exact Hlog.
Qed.

(** ** The values of an index key *)

(** X12: when the size query and the typed query of the index succeed,
    [codes_index_get] with [int] or [float] returns exactly as many items
    as [codes_index_get_size] reports: what the library stored, in order,
    and zeros in the cells it did not store. *)
Theorem codes_index_get_numbers :
  forall (indexid : cdata) (key : bytes) (w : world (ext St)) (n : nat) (s1 : St),
    n_codes_index_get_size more (address indexid) key (base (native w))
      = ((GRIB_SUCCESS lib, n), s1) ->
    (forall written size_p s2,
       n_codes_index_get_long more (address indexid) key n s1
         = ((GRIB_SUCCESS lib, (written, size_p)), s2) ->
       exists l w',
         codes_index_get lib more indexid key t_int w = (Ok (PyList (map PyInt l)), w') /\
         length l = n /\
         forall i, (i < n)%nat -> nth i l 0 = nth i written 0) /\
    (forall written size_p s2,
       n_codes_index_get_double more (address indexid) key n s1
         = ((GRIB_SUCCESS lib, (written, size_p)), s2) ->
       exists l w',
         codes_index_get lib more indexid key t_float w
           = (Ok (PyList (map PyFloat l)), w') /\
         length l = n /\
         forall i, (i < n)%nat ->
                   nth i l (S754_zero false) = nth i written (S754_zero false)).
Proof.
  intros indexid key w n s1 Hsize. split.
  - intros written size_p s2 H.
    unfold codes_index_get. cbn [pytype_eqb].
    unfold codes_index_get_long, codes_index_get_size, check_return,
      lib_codes_index_get_size, lib_codes_index_get_long, bind, foreign_more.
    rewrite Hsize. cbn [GRIB_SUCCESS with_ext]. rewrite Z.eqb_refl. cbn [negb ret native base].
    rewrite H. rewrite Z.eqb_refl. cbn.
    do 2 eexists. split; [reflexivity|].
    split; [apply array_getter_length | intros i Hi; apply buffer_nth; exact Hi].
  - intros written size_p s2 H.
    unfold codes_index_get. cbn [pytype_eqb].
    unfold codes_index_get_double, codes_index_get_size, check_return,
      lib_codes_index_get_size, lib_codes_index_get_double, bind, foreign_more.
    rewrite Hsize. cbn [GRIB_SUCCESS with_ext]. rewrite Z.eqb_refl. cbn [negb ret native base].
    rewrite H. rewrite Z.eqb_refl. cbn.
    do 2 eexists. split; [reflexivity|].
    split; [apply array_getter_length | intros i Hi; apply buffer_nth; exact Hi].
Qed.

(** X13: [codes_index_get] with [bytes] (buffers of 256 bytes) returns as
    many strings as the library leaves in [*size]; string [i] is the one
    the library stored in cell [i], cut at its first NUL byte (the empty
    string for a cell it did not store).  When that count is larger than
    the size the index reported, it raises [IndexError]. *)
Theorem codes_index_get_strings :
  forall (indexid : cdata) (key : bytes) (w : world (ext St)) (n : nat) (s1 s2 : St)
         (written : list bytes) (size_p : nat),
    n_codes_index_get_size more (address indexid) key (base (native w))
      = ((GRIB_SUCCESS lib, n), s1) ->
    n_codes_index_get_string more (address indexid) key 256 n s1
      = ((GRIB_SUCCESS lib, (written, size_p)), s2) ->
    ((size_p <= n)%nat ->
     exists l w',
       codes_index_get lib more indexid key t_bytes w
         = (Ok (PyList (map PyBytes l)), w') /\
       length l = size_p /\
       forall i, (i < size_p)%nat ->
                 cut_at_NUL (nth i written EmptyString) (nth i l EmptyString)) /\
    ((n < size_p)%nat ->
     fst (codes_index_get lib more indexid key t_bytes w) = Raise IndexError).
Proof.
  intros indexid key w n s1 s2 written size_p Hsize H.
  unfold codes_index_get. cbn [pytype_eqb].
  unfold codes_index_get_string, codes_index_get_size, check_return,
    lib_codes_index_get_size, lib_codes_index_get_string, bind, foreign_more,
    codes_index_get_string_length.
  rewrite Hsize. cbn [GRIB_SUCCESS with_ext]. rewrite Z.eqb_refl. cbn [negb ret native base].
  rewrite H. rewrite Z.eqb_refl. cbn [negb ret]. split.
  - intros Hle. apply Nat.leb_le in Hle as Hb. rewrite Hb.
    do 2 eexists. split; [reflexivity|]. split.
    + rewrite length_map, length_firstn, array_getter_length. lia.
    + intros i Hi. apply string_items_cut; assumption.
  - intros Hgt. apply Nat.leb_gt in Hgt. rewrite Hgt. reflexivity.
Qed.

(** ** Setting one value *)


(** ** Writing a message *)

Lemma ffi_buffer_length (memory : bytes) (size : nat) :
  (size <= String.length memory)%nat -> String.length (ffi_buffer memory size) = size.
Proof.
  unfold ffi_buffer. revert size.
  induction memory as [|c r IH]; intros [|n] H; cbn in *; try reflexivity; try lia.
  f_equal. apply IH. lia.
Qed.

(** X15: [codes_write] writes to the file, once, the first [mess_len] bytes
    of the message the library hands out, and nothing else; when the
    library reports a failure it raises and writes nothing. *)
Theorem codes_write_writes_the_message :
  forall (handle : cdata) (outfile : Z) (w : world (ext St))
         (code : Z) (mess : bytes) (mess_len : nat) (s : St),
    n_codes_get_message more (address handle) (base (native w))
      = ((code, (mess, mess_len)), s) ->
    (code = GRIB_SUCCESS lib ->
     exists w',
       codes_write lib more handle outfile w = (Ok tt, w') /\
       written_to (native w')
         = written_to (native w) ++ [(outfile, ffi_buffer mess mess_len)] /\
       ((mess_len <= String.length mess)%nat ->
        String.length (ffi_buffer mess mess_len) = mess_len)) /\
    (code <> GRIB_SUCCESS lib ->
     (exists e, fst (codes_write lib more handle outfile w) = Raise e) /\
     written_to (native (snd (codes_write lib more handle outfile w)))
       = written_to (native w)).
Proof.
  intros handle outfile w code mess mess_len s H. split.
  - intros ->. unfold codes_write, check_return, lib_codes_get_message, bind, foreign_more.
    rewrite H. cbn [GRIB_SUCCESS with_ext]. rewrite Z.eqb_refl. cbn [negb ret].
    unfold file_write. cbn. eexists. split; [reflexivity|]. split; [reflexivity|].
    apply ffi_buffer_length.
  - intros Hc. apply Z.eqb_neq in Hc.
    unfold codes_write, check_return, lib_codes_get_message, bind, foreign_more.
    rewrite H. cbn [GRIB_SUCCESS with_ext]. rewrite Hc. cbn [negb].
    unfold EcCodesError_init, grib_get_error_message, lib_grib_get_error_message,
      bind, foreign, lift, ENC, raise, ret. cbn.
    destruct (decode_ascii (n_grib_get_error_message lib code)); cbn;
      (split; [eexists; reflexivity | reflexivity]).
Qed.

(** ** The next message of an index *)

(** X16: [codes_new_from_index] hands on what the library answers: with the
    status [GRIB_SUCCESS] it returns the handle the library gave, a null
    one included, and it never raises [EOFError] (the end of an index is
    not translated as the end of a file is). *)
Theorem codes_new_from_index_no_end_of_input :
  forall (indexid : cdata) (w : world (ext St)),
    fst (codes_new_from_index lib more indexid w) <> Raise EOFError /\
    (forall h s,
       n_codes_handle_new_from_index more (address indexid) (base (native w))
         = ((h, GRIB_SUCCESS lib), s) ->
       exists handle w',
         codes_new_from_index lib more indexid w = (Ok handle, w') /\
         address handle = h).
Proof.
  intros indexid w.
  unfold codes_new_from_index, check_last, lib_codes_handle_new_from_index,
    bind, foreign_more, new_cdata, ret.
  destruct (n_codes_handle_new_from_index more (address indexid) (base (native w)))
    as [[h code] s]. cbn [GRIB_SUCCESS with_ext]. split.
  - destruct (code =? GRIB_SUCCESS lib); cbn -[EcCodesError_init]; [discriminate|].
    unfold EcCodesError_init, grib_get_error_message, lib_grib_get_error_message,
      bind, foreign, lift, ENC, raise, ret. cbn.
    destruct (decode_ascii (n_grib_get_error_message lib code)) as [t|e] eqn:E; cbn;
      [discriminate|].
    rewrite (decode_ascii_raises _ _ E). discriminate.
  - intros h' s' [= -> -> ->]. rewrite Z.eqb_refl. cbn.
    do 2 eexists. split; reflexivity.
Qed.

End MoreProperties.

(** * Runs on the sample library *)

Local Open Scope list_scope.

(** At the end of the stream the sample library gives a null handle with
    status 0 for GRIB and the end-of-file status for BUFR; stream 13 fails
    with an input-output error. *)
Lemma codes_handle_new_from_file_end_of_input_witness :
  codes_handle_new_from_file Sample.lib 3 CODES_PRODUCT_GRIB None (Sample.start 0)
    = (Raise EOFError,
       World 0%nat 3 [c_codes_handle_new_from_file 0 3 1] []) /\
  codes_handle_new_from_file Sample.lib 3 CODES_PRODUCT_BUFR None (Sample.start 0)
    = (Raise EOFError,
       World 0%nat 3 [c_codes_handle_new_from_file 0 3 2; c_grib_get_error_message (-1)] []) /\
  codes_handle_new_from_file Sample.lib 13 CODES_PRODUCT_GRIB None (Sample.start 2)
    = (Raise (EcCodesError (-11) "Input output problem" "Input output problem (-11)."),
       World 2%nat 3 [c_codes_handle_new_from_file 0 13 1; c_grib_get_error_message (-11)] []).
Proof.
  split; [|split].
  - refine (proj1 (codes_handle_new_from_file_end_of_input Sample.lib 3 CODES_PRODUCT_GRIB
                     None (Sample.start 0)
                     (World 0%nat 3 [c_codes_handle_new_from_file 0 3 1] [])
                     (CData 3 0) 0 eq_refl _ _) eq_refl eq_refl).
    + simpl; lia.
    + intros _; reflexivity.
  - refine (proj1 (proj2 (codes_handle_new_from_file_end_of_input Sample.lib 3
                     CODES_PRODUCT_BUFR None (Sample.start 0)
                     (World 0%nat 3 [c_codes_handle_new_from_file 0 3 2] [])
                     (CData 3 0) (-1) eq_refl _ _)) eq_refl).
    + simpl; lia.
    + intros _; reflexivity.
  - refine (proj1 (proj2 (proj2 (codes_handle_new_from_file_end_of_input Sample.lib 13
                     CODES_PRODUCT_GRIB None (Sample.start 2)
                     (World 2%nat 3 [c_codes_handle_new_from_file 0 13 1] [])
                     (CData 3 0) (-11) eq_refl _ _))) _ _).
    + simpl; lia.
    + intros _; reflexivity.
    + simpl; lia.
    + simpl; lia.
Defined.

(** A size query on a known key passes through [check_return]; on an
    unknown key it raises the error of the status. *)
Lemma check_wrappers_raise_EcCodesError_witness :
  check_return Sample.lib (lib_codes_get_size Sample.lib Sample.a_handle "values")
      (Sample.start 1)
    = (Ok 3%nat, World 1%nat 2 [c_codes_get_size 4096 "values"] []) /\
  check_return Sample.lib (lib_codes_get_size Sample.lib Sample.a_handle "dataDate")
      (Sample.start 1)
    = (Raise (EcCodesError (-10) "Key/value not found" "Key/value not found (-10)."),
       World 1%nat 2 [c_codes_get_size 4096 "dataDate"; c_grib_get_error_message (-10)] []) /\
  check_last Sample.lib (lib_codes_handle_new_from_file Sample.lib ffi_NULL 3 2)
      (Sample.start 0)
    = (Raise (EcCodesError (-1) "End of resource reached" "End of resource reached (-1)."),
       World 0%nat 3 [c_codes_handle_new_from_file 0 3 2; c_grib_get_error_message (-1)] []).
Proof.
  split; [|split].
  - refine (proj1 (proj2 (check_wrappers_raise_EcCodesError Sample.lib unit nat) _
                     (Sample.start 1) (World 1%nat 2 [c_codes_get_size 4096 "values"] [])
                     3%nat 0 eq_refl) eq_refl).
  - refine (proj2 (proj2 (check_wrappers_raise_EcCodesError Sample.lib unit nat) _
                     (Sample.start 1) (World 1%nat 2 [c_codes_get_size 4096 "dataDate"] [])
                     0%nat (-10) eq_refl) _ eq_refl).
    simpl; lia.
  - refine (proj2 (proj1 (check_wrappers_raise_EcCodesError Sample.lib cdata unit) _
                     (Sample.start 0) (World 0%nat 3 [c_codes_handle_new_from_file 0 3 2] [])
                     (CData 3 0) (-1) eq_refl) _ eq_refl).
    simpl; lia.
Defined.

(** C7 on the sample library: handle 8192 cannot be copied, the native call
    returns a null pointer, and [codes_handle_clone] returns the null
    handle instead of raising [EcCodesError (GRIB_NULL_POINTER)]. *)
Theorem codes_handle_clone_returns_null_handle :
  n_codes_handle_clone Sample.lib 8192 0%nat = (0, 0%nat) /\
  codes_handle_clone Sample.lib (CData 1 8192) (Sample.start 0)
    = (Ok (CData 3 0), World 0%nat 3 [c_codes_handle_clone 8192] []) /\
  cdata_eq (CData 3 0) ffi_NULL = true /\
  cdata_is (CData 3 0) ffi_NULL = false.
Proof.
  split; [reflexivity|]. split; [|split; reflexivity].
  rewrite codes_handle_clone_run. reflexivity.
Qed.

(** [None] is neither [int], [float] nor [bytes]: the error raised is
    [RuntimeError], not [TypeError].  An [int] beyond the C [long] is
    refused by the conversion and no select call is issued. *)
Lemma codes_index_select_raises_RuntimeError :
  codes_index_select Sample.lib Sample.py Sample.an_index "level" PyNone (Sample.start 0)
    = (Raise RuntimeError, Sample.start 0) /\
  RuntimeError <> TypeError /\
  isinstance (PyInt (2 ^ 63)) t_int = true /\
  codes_index_select Sample.lib Sample.py Sample.an_index "level" (PyInt (2 ^ 63))
      (Sample.start 0)
    = (Raise OverflowError, Sample.start 0).
Proof.
  split; [reflexivity|]. split; [discriminate|]. split; reflexivity.
Qed.

Lemma codes_index_select_by_type_witness :
  calls (snd (codes_index_select Sample.lib Sample.py Sample.an_index "level"
                (PyInt 500) (Sample.start 0)))
    = [c_codes_index_select_long 12288 "level" 500] /\
  calls (snd (codes_index_select Sample.lib Sample.py Sample.an_index "values"
                (PyFloat Sample.two) (Sample.start 0)))
    = [c_codes_index_select_double 12288 "values" Sample.two] /\
  calls (snd (codes_index_select Sample.lib Sample.py Sample.an_index "paramId"
                (PyBytes "167") (Sample.start 0)))
    = [c_codes_index_select_string 12288 "paramId" "167"; c_grib_get_error_message (-10)] /\
  codes_index_select Sample.lib Sample.py Sample.an_index "shortName" (PyStr "2t")
      (Sample.start 0)
    = (Raise RuntimeError, Sample.start 0) /\
  codes_index_select Sample.lib Sample.windows Sample.an_index "level" (PyInt (- 2 ^ 31 - 1))
      (Sample.start 0)
    = (Raise OverflowError, Sample.start 0).
Proof.
  split; [|split; [|split; [|split]]].
  - exact (proj1 (codes_index_select_by_type Sample.lib Sample.py Sample.an_index
                    "level" (PyInt 500) (Sample.start 0)) 500 eq_refl eq_refl).
  - exact (proj1 (proj2 (codes_index_select_by_type Sample.lib Sample.py Sample.an_index
                    "values" (PyFloat Sample.two) (Sample.start 0))) Sample.two eq_refl).
  - exact (proj1 (proj2 (proj2 (codes_index_select_by_type Sample.lib Sample.py
                    Sample.an_index "paramId" (PyBytes "167") (Sample.start 0))))
                 "167" eq_refl).
  - exact (proj1 (proj2 (proj2 (proj2 (codes_index_select_by_type Sample.lib Sample.py
                    Sample.an_index "shortName" (PyStr "2t") (Sample.start 0)))))
                 eq_refl eq_refl eq_refl).
  - exact (proj2 (proj2 (proj2 (proj2 (codes_index_select_by_type Sample.lib Sample.windows
                    Sample.an_index "level" (PyInt (- 2 ^ 31 - 1)) (Sample.start 0)))))
                 (- 2 ^ 31 - 1) eq_refl eq_refl).
Defined.



Lemma codes_set_array_by_first_item_witness :
  codes_set_array Sample.lib Sample.py Sample.a_handle "values" [] (Sample.start 0)
    = (Raise ValueError, Sample.start 0) /\
  codes_set_array Sample.lib Sample.py Sample.a_handle "values" [PyStr "1.5"] (Sample.start 0)
    = (Raise TypeError, Sample.start 0) /\
  codes_set_array Sample.lib Sample.py Sample.a_handle "values" [PyFloat Sample.one; PyInt 2]
    = codes_set_double_array Sample.lib Sample.a_handle "values" [PyFloat Sample.one; PyInt 2] /\
  codes_set_array Sample.lib Sample.py Sample.a_handle "level" [PyInt 500; PyBool true]
    = codes_set_long_array Sample.lib Sample.py Sample.a_handle "level" [PyInt 500; PyBool true].
Proof.
  split; [|split; [|split]].
  - exact (proj1 (codes_set_array_by_first_item Sample.lib Sample.py Sample.a_handle
                    "values" [] (Sample.start 0)) eq_refl).
  - exact (proj1 (proj2 (codes_set_array_by_first_item Sample.lib Sample.py Sample.a_handle
                    "values" [PyStr "1.5"] (Sample.start 0)))
                 (PyStr "1.5") [] eq_refl eq_refl eq_refl).
  - exact (proj1 (proj2 (proj2 (codes_set_array_by_first_item Sample.lib Sample.py
                    Sample.a_handle "values" [PyFloat Sample.one; PyInt 2] (Sample.start 0))))
                 (PyFloat Sample.one) [PyInt 2] eq_refl eq_refl).
  - exact (proj2 (proj2 (proj2 (codes_set_array_by_first_item Sample.lib Sample.py
                    Sample.a_handle "level" [PyInt 500; PyBool true] (Sample.start 0))))
                 (PyInt 500) [PyBool true] eq_refl eq_refl).
Defined.

(** [stationNames] counts three values and the native string-array call
    leaves two in [*size]: the list has two items, not three. *)
Lemma codes_get_array_returns_fewer_strings :
  codes_get_size Sample.lib Sample.a_handle "stationNames" (Sample.start 0)
    = (Ok 3%nat, World 0%nat 2 [c_codes_get_size 4096 "stationNames"] []) /\
  codes_get_array Sample.lib Sample.a_handle "stationNames" None None None (Sample.start 0)
    = (Ok (PyList [PyBytes "EGLL"; PyBytes "LFPG"]),
       World 0%nat 2
         [c_codes_get_native_type 4096 "stationNames";
          c_codes_get_size 4096 "stationNames";
          c_codes_get_length 4096 "stationNames";
          c_codes_get_string_array 4096 "stationNames" 8 3] []).
Proof.
  split; reflexivity.
Qed.

Lemma codes_get_array_size_of_witness :
  (exists l,
     fst (codes_get_array Sample.lib Sample.a_handle "values" None None None (Sample.start 0))
       = Ok (PyList (map PyFloat l)) /\ length l = 3%nat) /\
  (exists l,
     fst (codes_get_array Sample.lib Sample.a_handle "level" (Some 1) None None (Sample.start 0))
       = Ok (PyList (map PyInt l)) /\ length l = 1%nat) /\
  (exists l,
     fst (codes_get_array Sample.lib Sample.a_handle "bitmap" None None None (Sample.start 0))
       = Ok (PyList (map PyInt l)) /\ length l = 2%nat) /\
  (exists l,
     fst (codes_get_array Sample.lib Sample.a_handle "stationNames" None None None
            (Sample.start 0))
       = Ok (PyList (map PyBytes l)) /\ length l = 2%nat).
Proof.
  assert (Hdistinct : NoDup [CODES_TYPE_LONG Sample.lib; CODES_TYPE_DOUBLE Sample.lib;
                             CODES_TYPE_STRING Sample.lib; CODES_TYPE_BYTES Sample.lib]).
  { repeat (constructor; [simpl; lia|]). constructor. }
  split; [|split; [|split]].
  - exact (proj1 (proj2 (proj2 (codes_get_array_size_of Sample.lib Sample.a_handle "values"
             None None (Sample.start 0)
             (World 0%nat 2 [c_codes_get_native_type 4096 "values"] [])
             (World 0%nat 2 [c_codes_get_native_type 4096 "values";
                             c_codes_get_size 4096 "values"] [])
             2 3%nat eq_refl eq_refl Hdistinct)))
           eq_refl [Sample.one; Sample.two; Sample.three] 3%nat 0%nat eq_refl).
  - exact (proj1 (proj2 (codes_get_array_size_of Sample.lib Sample.a_handle "level"
             (Some 1) None (Sample.start 0) (Sample.start 0)
             (World 0%nat 2 [c_codes_get_size 4096 "level"] [])
             1 1%nat eq_refl eq_refl Hdistinct))
           eq_refl [500] 1%nat 0%nat eq_refl).
  - exact (proj1 (proj2 (proj2 (proj2 (codes_get_array_size_of Sample.lib Sample.a_handle
             "bitmap" None None (Sample.start 0)
             (World 0%nat 2 [c_codes_get_native_type 4096 "bitmap"] [])
             (World 0%nat 2 [c_codes_get_native_type 4096 "bitmap";
                             c_codes_get_size 4096 "bitmap"] [])
             4 2%nat eq_refl eq_refl Hdistinct))))
           eq_refl [255; 0] 2%nat 0%nat eq_refl).
  - refine (proj2 (proj2 (proj2 (proj2 (codes_get_array_size_of Sample.lib Sample.a_handle
             "stationNames" None None (Sample.start 0)
             (World 0%nat 2 [c_codes_get_native_type 4096 "stationNames"] [])
             (World 0%nat 2 [c_codes_get_native_type 4096 "stationNames";
                             c_codes_get_size 4096 "stationNames"] [])
             3 3%nat eq_refl eq_refl Hdistinct))))
           eq_refl 8%nat
           (World 0%nat 2 [c_codes_get_native_type 4096 "stationNames";
                           c_codes_get_size 4096 "stationNames";
                           c_codes_get_length 4096 "stationNames"] [])
           ["EGLL"; "LFPG"] 2%nat 0%nat eq_refl eq_refl _).
    lia.
Defined.

(** [section1] has the native type section, which the layer does not read,
    and its size cannot be asked for: [codes_get_array] raises the error of
    the size query and logs no warning. *)
Lemma codes_get_array_raises_before_the_type_test :
  codes_get_native_type Sample.lib Sample.a_handle "section1" (Sample.start 0)
    = (Ok (CODES_TYPE_SECTION Sample.lib),
       World 0%nat 2 [c_codes_get_native_type 4096 "section1"] []) /\
  codes_get_array Sample.lib Sample.a_handle "section1" None None None (Sample.start 0)
    = (Raise (EcCodesError (-4) "Function not yet implemented"
                "Function not yet implemented (-4)."),
       World 0%nat 2
         [c_codes_get_native_type 4096 "section1";
          c_codes_get_size 4096 "section1";
          c_grib_get_error_message (-4)] []).
Proof.
  split; reflexivity.
Qed.

Lemma unknown_key_type_warns_witness :
  codes_get Sample.lib Sample.a_handle "section1" None None (Sample.start 0)
    = (Ok PyNone,
       World 0%nat 2 [c_codes_get_native_type 4096 "section1"]
             ["Unknown GRIB key type: 5"]) /\
  codes_get_array Sample.lib Sample.a_handle "identifier" None None None (Sample.start 0)
    = (Ok PyNone,
       World 0%nat 2
         [c_codes_get_native_type 4096 "identifier"; c_codes_get_size 4096 "identifier"]
         ["Unknown GRIB key type: 6"]) /\
  codes_get_array Sample.lib Sample.a_handle "section1" (Some 5) (Some 4%nat) None
      (Sample.start 0)
    = (Ok PyNone, World 0%nat 2 [] ["Unknown GRIB key type: 5"]).
Proof.
  split; [|split].
  - refine (proj1 (unknown_key_type_warns Sample.lib Sample.a_handle "section1" None None
                     (Sample.start 0)
                     (World 0%nat 2 [c_codes_get_native_type 4096 "section1"] [])
                     5 eq_refl _ _ _)); simpl; lia.
  - refine (proj1 (proj2 (unknown_key_type_warns Sample.lib Sample.a_handle "identifier"
                     None None (Sample.start 0)
                     (World 0%nat 2 [c_codes_get_native_type 4096 "identifier"] [])
                     6 eq_refl _ _ _) _ None) 1%nat
                  (World 0%nat 2 [c_codes_get_native_type 4096 "identifier";
                                  c_codes_get_size 4096 "identifier"] [])
                  eq_refl); simpl; lia.
  - refine (proj1 (proj2 (unknown_key_type_warns Sample.lib Sample.a_handle "section1"
                     (Some 5) None (Sample.start 0) (Sample.start 0)
                     5 eq_refl _ _ _) _ (Some 4%nat)) 4%nat (Sample.start 0) eq_refl);
      simpl; lia.
Defined.

Lemma codes_new_from_samples_outcomes_witness :
  codes_new_from_samples Sample.lib Sample.py "GRIB2" CODES_PRODUCT_GRIB (Sample.start 0)
    = (Ok (CData 3 8192),
       World 0%nat 3 [c_codes_grib_handle_new_from_samples 0 "GRIB2"] []) /\
  codes_new_from_samples Sample.lib Sample.py "BUFR3" CODES_PRODUCT_BUFR (Sample.start 0)
    = (Raise ValueError,
       World 0%nat 3 [c_codes_bufr_handle_new_from_samples 0 "BUFR3"] []) /\
  codes_new_from_samples Sample.lib Sample.py "GRIB2" CODES_PRODUCT_METAR (Sample.start 0)
    = (Raise NotImplementedError, Sample.start 0) /\
  codes_new_from_samples Sample.lib Sample.windows "GRIB2" CODES_PRODUCT_GRIB (Sample.start 1)
    = (Ok (CData 3 4096),
       World 0%nat 3 [c_codes_samples_path 0; c_codes_handle_new_from_file 0 7 1] []).
Proof.
  split; [|split; [|split]].
  - exact (proj1 (proj2 (proj2 (codes_new_from_samples_outcomes Sample.lib Sample.py
             "GRIB2" CODES_PRODUCT_GRIB (Sample.start 0) (Sample.start 0) ffi_NULL eq_refl)))
           eq_refl eq_refl 8192 0%nat eq_refl).
  - exact (proj2 (proj2 (proj2 (codes_new_from_samples_outcomes Sample.lib Sample.py
             "BUFR3" CODES_PRODUCT_BUFR (Sample.start 0) (Sample.start 0) ffi_NULL eq_refl)))
           eq_refl eq_refl 0 0%nat eq_refl).
  - refine (proj1 (proj2 (codes_new_from_samples_outcomes Sample.lib Sample.py
             "GRIB2" CODES_PRODUCT_METAR (Sample.start 0) (Sample.start 0) ffi_NULL eq_refl))
           eq_refl _ _); unfold CODES_PRODUCT_METAR, CODES_PRODUCT_GRIB, CODES_PRODUCT_BUFR; lia.
  - refine (proj1 (codes_new_from_samples_outcomes Sample.lib Sample.windows
             "GRIB2" CODES_PRODUCT_GRIB (Sample.start 1)
             (World 0%nat 3 [c_codes_samples_path 0; c_codes_handle_new_from_file 0 7 1] [])
             (CData 3 4096) eq_refl) _).
    simpl; lia.
Defined.

Lemma codes_get_api_version_components_witness :
  codes_get_api_version Sample.lib (Sample.start 0)
    = (Ok "2.14.0", World 0%nat 2 [c_codes_get_api_version] []) /\
  split_on "." "2.14.0" = ["2"; "14"; "0"].
Proof.
  destruct (codes_get_api_version_components Sample.lib (Sample.start 0) 21400 0%nat eq_refl)
    as [text [Hrun [Htext Hsplit]]].
  rewrite Htext in Hrun, Hsplit. split; [exact Hrun | exact Hsplit].
Defined.

(** * Further runs on the sample library *)

Lemma codes_handle_new_from_file_never_null_witness :
  codes_handle_new_from_file Sample.lib 3 CODES_PRODUCT_GRIB None (Sample.start 2)
    = (Ok (CData 3 4097), World 1%nat 3 [c_codes_handle_new_from_file 0 3 1] []) /\
  address (CData 3 4097) <> 0.
Proof.
  split; [reflexivity|].
  exact (codes_handle_new_from_file_never_null Sample.lib 3 CODES_PRODUCT_GRIB None
           (Sample.start 2) (World 1%nat 3 [c_codes_handle_new_from_file 0 3 1] [])
           (CData 3 4097) eq_refl).
Defined.

Lemma codes_handle_new_from_file_hides_end_of_file_witness :
  codes_handle_new_from_file Sample.lib 13 CODES_PRODUCT_BUFR None (Sample.start 2)
    = (Raise (EcCodesError (-11) "Input output problem" "Input output problem (-11)."),
       World 2%nat 3 [c_codes_handle_new_from_file 0 13 2; c_grib_get_error_message (-11)] []) /\
  -11 <> GRIB_END_OF_FILE Sample.lib.
Proof.
  split; [reflexivity|].
  exact (codes_handle_new_from_file_hides_end_of_file Sample.lib 13 CODES_PRODUCT_BUFR None
           (Sample.start 2)
           (World 2%nat 3 [c_codes_handle_new_from_file 0 13 2; c_grib_get_error_message (-11)] [])
           (-11) "Input output problem" "Input output problem (-11)." eq_refl).
Defined.

(** On the POSIX host nothing happens; on the Windows host an empty stream
    is swallowed and a build without samples path raises. *)
Lemma portable_handle_new_from_samples_swallows_witness :
  portable_handle_new_from_samples Sample.lib Sample.py "GRIB2" CODES_PRODUCT_GRIB
      (Sample.start 0)
    = (Ok ffi_NULL, Sample.start 0) /\
  (portable_handle_new_from_samples Sample.lib Sample.windows "GRIB2" CODES_PRODUCT_GRIB
      (Sample.start 0)
    = (Ok ffi_NULL,
       World 0%nat 3 [c_codes_samples_path 0; c_codes_handle_new_from_file 0 7 1] []) /\
   (ffi_NULL = ffi_NULL \/ address ffi_NULL <> 0)) /\
  (portable_handle_new_from_samples SampleMore.no_samples Sample.windows "GRIB2"
      CODES_PRODUCT_GRIB (Sample.start 0)
    = (Raise RuntimeError, World 0%nat 2 [c_codes_samples_path 0] []) /\
   (RuntimeError = RuntimeError /\ is_windows Sample.windows = true /\
    fst (n_codes_samples_path SampleMore.no_samples 0 (native (Sample.start 0))) = None)).
Proof.
  split; [|split].
  - exact (proj1 (portable_handle_new_from_samples_swallows Sample.lib Sample.py "GRIB2"
                    CODES_PRODUCT_GRIB (Sample.start 0)) eq_refl).
  - split; [reflexivity|].
    exact (proj2 (proj2 (portable_handle_new_from_samples_swallows Sample.lib Sample.windows
                    "GRIB2" CODES_PRODUCT_GRIB (Sample.start 0)))
                 ffi_NULL
                 (World 0%nat 3 [c_codes_samples_path 0; c_codes_handle_new_from_file 0 7 1] [])
                 eq_refl).
  - split; [reflexivity|].
    exact (proj1 (proj2 (portable_handle_new_from_samples_swallows SampleMore.no_samples
                    Sample.windows "GRIB2" CODES_PRODUCT_GRIB (Sample.start 0)))
                 RuntimeError (World 0%nat 2 [c_codes_samples_path 0] []) eq_refl).
Defined.

Lemma codes_new_from_samples_never_null_witness :
  codes_new_from_samples Sample.lib Sample.py "GRIB2" CODES_PRODUCT_GRIB (Sample.start 0)
    = (Ok (CData 3 8192),
       World 0%nat 3 [c_codes_grib_handle_new_from_samples 0 "GRIB2"] []) /\
  address (CData 3 8192) <> 0.
Proof.
  split; [reflexivity|].
  exact (codes_new_from_samples_never_null Sample.lib Sample.py "GRIB2" CODES_PRODUCT_GRIB
           (Sample.start 0)
           (World 0%nat 3 [c_codes_grib_handle_new_from_samples 0 "GRIB2"] [])
           (CData 3 8192) eq_refl).
Defined.

(** [level] holds one value: asked for three, the getter returns it and
    two zeros. *)
Lemma array_getters_return_size_items_witness :
  codes_get_long_array Sample.lib Sample.a_handle "level" 3 (Sample.start 0)
    = (Ok [500; 0; 0], World 0%nat 2 [c_codes_get_long_array 4096 "level" 3] []) /\
  (exists l w',
     codes_get_long_array Sample.lib Sample.a_handle "level" 3 (Sample.start 0) = (Ok l, w') /\
     length l = 3%nat /\
     forall i, (i < 3)%nat -> nth i l 0 = nth i [500] 0) /\
  (exists l w',
     codes_get_double_array Sample.lib Sample.a_handle "values" 2 (Sample.start 0) = (Ok l, w') /\
     length l = 2%nat /\
     forall i, (i < 2)%nat ->
               nth i l (S754_zero false) = nth i [Sample.one; Sample.two] (S754_zero false)) /\
  (exists l w',
     codes_get_bytes_array Sample.lib Sample.a_handle "bitmap" 4 (Sample.start 0) = (Ok l, w') /\
     length l = 4%nat /\
     forall i, (i < 4)%nat -> nth i l 0 = nth i [255; 0] 0).
Proof.
  split; [reflexivity|]. split; [|split].
  - exact (proj1 (array_getters_return_size_items Sample.lib Sample.a_handle "level" 3
                    (Sample.start 0)) [500] 1%nat 0%nat eq_refl).
  - exact (proj1 (proj2 (array_getters_return_size_items Sample.lib Sample.a_handle "values" 2
                    (Sample.start 0))) [Sample.one; Sample.two] 2%nat 0%nat eq_refl).
  - exact (proj2 (proj2 (array_getters_return_size_items Sample.lib Sample.a_handle "bitmap" 4
                    (Sample.start 0))) [255; 0] 2%nat 0%nat eq_refl).
Defined.

Lemma codes_get_string_bounds_witness :
  codes_get_string Sample.lib Sample.a_handle "shortName" None (Sample.start 0)
    = (Ok "2t",
       World 0%nat 2
         [c_codes_get_length 4096 "shortName"; c_codes_get_string 4096 "shortName" 3] []) /\
  (exists result w',
     codes_get_string Sample.lib Sample.a_handle "shortName" None (Sample.start 0)
       = (Ok result, w') /\
     has_char zero result = false /\
     (String.length result <= 3)%nat /\
     exists rest, "2t" = (result ++ rest)%string) /\
  codes_get_string Sample.lib Sample.a_handle "shortName" (Some 1%nat) (Sample.start 0)
    = (Ok "2t", World 0%nat 2 [c_codes_get_string 4096 "shortName" 1] []).
Proof.
  split; [reflexivity|]. split; [|reflexivity].
  destruct (codes_get_string_bounds Sample.lib Sample.a_handle "shortName" None 3%nat
              (Sample.start 0) (World 0%nat 2 [c_codes_get_length 4096 "shortName"] [])
              "2t" 3%nat 0%nat eq_refl eq_refl)
    as [result [w' [Hrun [Hfree [Hlen Hprefix]]]]].
  exists result, w'. repeat split; try assumption.
  apply Hprefix. lia.
Defined.

Lemma codes_get_string_array_items_witness :
  exists l w',
    codes_get_string_array Sample.lib Sample.a_handle "stationNames" 3 (Some 8%nat)
        (Sample.start 0) = (Ok l, w') /\
    length l = 2%nat /\
    forall i, (i < 2)%nat ->
              cut_at_NUL (nth i ["EGLL"; "LFPG"] EmptyString) (nth i l EmptyString).
Proof.
  refine (proj1 (codes_get_string_array_items Sample.lib Sample.a_handle "stationNames" 3
                   (Some 8%nat) 8%nat (Sample.start 0) (Sample.start 0)
                   ["EGLL"; "LFPG"] 2%nat 0%nat eq_refl eq_refl) _).
  lia.
Defined.

(** [dataDate] is not a key of the sample message. *)
Lemma getters_raise_on_unknown_key_witness :
  codes_get Sample.lib Sample.a_handle "dataDate" None None (Sample.start 0)
    = (Raise (EcCodesError (-10) "Key/value not found" "Key/value not found (-10)."),
       World 0%nat 2
         [c_codes_get_native_type 4096 "dataDate"; c_grib_get_error_message (-10)] []) /\
  codes_get_array Sample.lib Sample.a_handle "dataDate" None None None (Sample.start 0)
    = (Raise (EcCodesError (-10) "Key/value not found" "Key/value not found (-10)."),
       World 0%nat 2
         [c_codes_get_native_type 4096 "dataDate"; c_grib_get_error_message (-10)] []).
Proof.
  refine (getters_raise_on_unknown_key Sample.lib Sample.a_handle "dataDate" None None
            (Sample.start 0) (-10) 0 0%nat eq_refl _ eq_refl).
  simpl; lia.
Defined.

Lemma codes_get_api_version_round_trip_witness :
  fst (codes_get_api_version Sample.lib (Sample.start 0)) = Ok "2.14.0".
Proof.
  refine (codes_get_api_version_round_trip Sample.lib (Sample.start 0) 2 14 0 0%nat
            eq_refl _ _); lia.
Defined.

Lemma codes_set_array_passes_values_witness :
  calls (snd (codes_set_array Sample.lib Sample.py Sample.a_handle "level"
                [PyInt 500; PyInt 850] (Sample.start 0)))
    = [c_codes_set_long_array 4096 "level" [500; 850] 2] /\
  calls (snd (codes_set_array Sample.lib Sample.py Sample.a_handle "values"
                [PyFloat Sample.one; PyFloat Sample.three] (Sample.start 0)))
    = [c_codes_set_double_array 4096 "values" [Sample.one; Sample.three] 2] /\
  codes_set_array Sample.lib Sample.windows Sample.a_handle "level"
      [PyInt 500; PyInt (2 ^ 31)] (Sample.start 0)
    = (Raise OverflowError, Sample.start 0).
Proof.
  split; [|split].
  - exact (proj1 (codes_set_array_passes_values Sample.lib Sample.py Sample.a_handle "level"
                    (Sample.start 0)) 500 [850] eq_refl).
  - exact (proj1 (proj2 (codes_set_array_passes_values Sample.lib Sample.py Sample.a_handle
                    "values" (Sample.start 0))) Sample.one [Sample.three]).
  - exact (proj2 (proj2 (codes_set_array_passes_values Sample.lib Sample.windows
                    Sample.a_handle "level" (Sample.start 0))) 500 [2 ^ 31] eq_refl).
Defined.

(** The Latin-1 build answers status -10 with a message that is not
    ASCII. *)
Lemma wrappers_raise_UnicodeDecodeError_witness :
  check_return SampleMore.latin1
      (lib_codes_get_size SampleMore.latin1 Sample.a_handle "dataDate") (Sample.start 0)
    = (Raise UnicodeDecodeError,
       World 0%nat 2 [c_codes_get_size 4096 "dataDate"; c_grib_get_error_message (-10)] []) /\
  check_last SampleMore.latin1 (ret (tt, -10)) (Sample.start 0)
    = (Raise UnicodeDecodeError, World 0%nat 2 [c_grib_get_error_message (-10)] []).
Proof.
  assert (Hc : -10 <> GRIB_SUCCESS SampleMore.latin1) by (simpl; lia).
  split.
  - exact (proj2 (wrappers_raise_UnicodeDecodeError SampleMore.latin1 unit nat
                    (ret (tt, -10))
                    (lib_codes_get_size SampleMore.latin1 Sample.a_handle "dataDate")
                    (Sample.start 0) (Sample.start 0)
                    (World 0%nat 2 [c_codes_get_size 4096 "dataDate"] [])
                    tt 0%nat (-10) Hc eq_refl) eq_refl).
  - exact (proj1 (wrappers_raise_UnicodeDecodeError SampleMore.latin1 unit nat
                    (ret (tt, -10))
                    (lib_codes_get_size SampleMore.latin1 Sample.a_handle "dataDate")
                    (Sample.start 0) (Sample.start 0)
                    (World 0%nat 2 [c_codes_get_size 4096 "dataDate"] [])
                    tt 0%nat (-10) Hc eq_refl) eq_refl).
Defined.

Lemma codes_index_new_from_file_keys_witness :
  (exists keys_enc,
     split_on "," keys_enc = ["shortName"; "level"; "number"] /\
     more_calls (native (snd (codes_index_new_from_file Sample.lib SampleMore.more
                                "era5.grib" ["shortName"; "level"; "number"]
                                (SampleMore.start 2))))
       = [c_codes_index_new_from_file 0 "era5.grib" keys_enc]) /\
  more_calls (native (snd (codes_index_new_from_file Sample.lib SampleMore.more
                             "era5.grib" ["shortName"; "level"; "number"]
                             (SampleMore.start 2))))
    = [c_codes_index_new_from_file 0 "era5.grib" "shortName,level,number"] /\
  more_calls (native (snd (codes_index_new_from_file Sample.lib SampleMore.more
                             "era5.grib" [] (SampleMore.start 2))))
    = [c_codes_index_new_from_file 0 "era5.grib" ""].
Proof.
  split; [|split; [reflexivity|]].
  - refine (proj1 (codes_index_new_from_file_keys Sample.lib SampleMore.more "era5.grib"
                     ["shortName"; "level"; "number"] (SampleMore.start 2)) _ _).
    + discriminate.
    + repeat constructor.
  - exact (proj2 (codes_index_new_from_file_keys Sample.lib SampleMore.more "era5.grib"
                    [] (SampleMore.start 2)) eq_refl).
Defined.

Lemma codes_index_get_numbers_witness :
  codes_index_get Sample.lib SampleMore.more Sample.an_index "level" t_int
      (SampleMore.start 2)
    = (Ok (PyList [PyInt 500; PyInt 850]),
       World (Ext 2%nat [c_codes_index_get_size 12288 "level";
                         c_codes_index_get_long 12288 "level" 2] []) 2 [] []) /\
  (exists l w',
     codes_index_get Sample.lib SampleMore.more Sample.an_index "level" t_int
         (SampleMore.start 2) = (Ok (PyList (map PyInt l)), w') /\
     length l = 2%nat /\
     forall i, (i < 2)%nat -> nth i l 0 = nth i [500; 850] 0) /\
  (exists l w',
     codes_index_get Sample.lib SampleMore.more Sample.an_index "level" t_float
         (SampleMore.start 2) = (Ok (PyList (map PyFloat l)), w') /\
     length l = 2%nat /\
     forall i, (i < 2)%nat ->
               nth i l (S754_zero false) = nth i [Sample.one; Sample.two] (S754_zero false)).
Proof.
  split; [reflexivity|]. split.
  - exact (proj1 (codes_index_get_numbers Sample.lib SampleMore.more Sample.an_index "level"
                    (SampleMore.start 2) 2%nat 2%nat eq_refl)
                 [500; 850] 2%nat 2%nat eq_refl).
  - exact (proj2 (codes_index_get_numbers Sample.lib SampleMore.more Sample.an_index "level"
                    (SampleMore.start 2) 2%nat 2%nat eq_refl)
                 [Sample.one; Sample.two] 2%nat 2%nat eq_refl).
Defined.

(** [shortName] has two values; for [number] the library reports two
    strings where the index counted one. *)
Lemma codes_index_get_strings_witness :
  (exists l w',
     codes_index_get Sample.lib SampleMore.more Sample.an_index "shortName" t_bytes
         (SampleMore.start 2) = (Ok (PyList (map PyBytes l)), w') /\
     length l = 2%nat /\
     forall i, (i < 2)%nat ->
               cut_at_NUL (nth i ["2t"; "msl"] EmptyString) (nth i l EmptyString)) /\
  fst (codes_index_get Sample.lib SampleMore.more Sample.an_index "number" t_bytes
         (SampleMore.start 2)) = Raise IndexError.
Proof.
  split.
  - refine (proj1 (codes_index_get_strings Sample.lib SampleMore.more Sample.an_index
                     "shortName" (SampleMore.start 2) 2%nat 2%nat 2%nat ["2t"; "msl"] 2%nat
                     eq_refl eq_refl) _).
    lia.
  - refine (proj2 (codes_index_get_strings Sample.lib SampleMore.more Sample.an_index
                     "number" (SampleMore.start 2) 1%nat 2%nat 2%nat ["0"] 2%nat
                     eq_refl eq_refl) _).
    lia.
Defined.


(** Handle 4096 holds twelve bytes; handle 8192 holds no message. *)
Lemma codes_write_writes_the_message_witness :
  (exists w',
     codes_write Sample.lib SampleMore.more Sample.a_handle 5 (SampleMore.start 0)
       = (Ok tt, w') /\
     written_to (native w') = [(5, "GRIB00027777")] /\
     ((12 <= String.length "GRIB00027777")%nat ->
      String.length (ffi_buffer "GRIB00027777" 12) = 12%nat)) /\
  ((exists e, fst (codes_write Sample.lib SampleMore.more (CData 1 8192) 5
                     (SampleMore.start 0)) = Raise e) /\
   written_to (native (snd (codes_write Sample.lib SampleMore.more (CData 1 8192) 5
                              (SampleMore.start 0)))) = []).
Proof.
  split.
  - exact (proj1 (codes_write_writes_the_message Sample.lib SampleMore.more Sample.a_handle 5
                    (SampleMore.start 0) 0 "GRIB00027777" 12%nat 0%nat eq_refl) eq_refl).
  - refine (proj2 (codes_write_writes_the_message Sample.lib SampleMore.more (CData 1 8192) 5
                     (SampleMore.start 0) (-60) EmptyString 0%nat 0%nat eq_refl) _).
    simpl; lia.
Defined.

Lemma codes_new_from_index_no_end_of_input_witness :
  (exists handle w',
     codes_new_from_index Sample.lib SampleMore.more Sample.an_index (SampleMore.start 1)
       = (Ok handle, w') /\
     address handle = 4096) /\
  codes_new_from_index Sample.lib SampleMore.more Sample.an_index (SampleMore.start 0)
    = (Raise (EcCodesError (-1) "End of resource reached" "End of resource reached (-1)."),
       World (Ext 0%nat [c_codes_handle_new_from_index 12288] []) 3
             [c_grib_get_error_message (-1)] []).
Proof.
  split; [|reflexivity].
  exact (proj2 (codes_new_from_index_no_end_of_input Sample.lib SampleMore.more
                  Sample.an_index (SampleMore.start 1)) 4096 0%nat eq_refl).
Defined.
